(** * HackSorter: the hiring graph, its seven agents and the event stream

    A shallow embedding of [backend/utils/llm.py], [backend/agents/*.py],
    [backend/graph.py] and [backend/main.py].

    Modelling conventions.
    - Python values that travel through the state are JSON values; a
      [dict] is an association list searched from the front (keys of a
      Python dict are unique, so the first binding is the binding).
    - Python numbers ([int] and binary64 [float]) are idealised as
      rationals: rounding is not modelled, and [int] and [float] are not
      told apart.  [bool] takes part in arithmetic as 0 and 1, as it does
      in Python.  Arithmetic on any other operand raises [TypeError];
      Python's repetition of a sequence by an [int] is not modelled.
    - Exceptions are modelled by class, with the message where the source
      fixes it.  Only subclasses of [Exception] are modelled.
    - The language model behind [chain.invoke] is opaque: what the [try]
      block of an agent observes is an [llm_outcome]. *)

From Stdlib Require Import String Ascii DecimalString List Bool ZArith QArith Lia Lqa.
From Stdlib Require Import Permutation Sorted.
Import ListNotations.
Open Scope string_scope.

(** ** JSON values and Python exceptions *)

#[warnings="-register-all"]
Inductive json : Type :=
| JNull
| JBool (b : bool)
| JNum (q : Q)
| JStr (s : string)
| JArr (items : list json)
| JObj (fields : list (string * json)).

Definition dict := list (string * json).

Inductive exn : Type :=
| KeyError (key : string)
| AttributeError (attr : string)
| TypeError
| ValueError (msg : string)
| BackendError (msg : string).

Inductive result (A : Type) : Type :=
| Ok (a : A)
| Raise (e : exn).
Arguments Ok {A} a.
Arguments Raise {A} e.

Definition bind {A B} (c : result A) (k : A -> result B) : result B :=
  match c with
  | Ok a => k a
  | Raise e => Raise e
  end.

Notation "x <- c ;; k" := (bind c (fun x => k))
  (at level 61, c at next level, right associativity).

(** [str(e)].  The texts of [AttributeError] and [TypeError] name the
    types of the operands in Python; here they are shortened, and nothing
    below depends on them. *)
Definition exn_str (e : exn) : string :=
  match e with
  | KeyError k => "'" ++ k ++ "'"
  | AttributeError a => "object has no attribute '" ++ a ++ "'"
  | TypeError => "unsupported operand"
  | ValueError m => m
  | BackendError m => m
  end.

(** ** Python primitives used by the agents *)

Fixpoint lookup (k : string) (d : dict) : option json :=
  match d with
  | [] => None
  | (k', v) :: d' => if String.eqb k k' then Some v else lookup k d'
  end.

(** [d[k]] on the state *)
Definition subscript (d : dict) (k : string) : result json :=
  match lookup k d with
  | Some v => Ok v
  | None => Raise (KeyError k)
  end.

(** [state.get(k, dflt)]: the state is always a dict *)
Definition state_get (st : dict) (k : string) (dflt : json) : json :=
  match lookup k st with
  | Some v => v
  | None => dflt
  end.

(** [obj.get(k, dflt)]: only a dict has [get] *)
Definition py_get (obj : json) (k : string) (dflt : json) : result json :=
  match obj with
  | JObj d => Ok (match lookup k d with Some v => v | None => dflt end)
  | _ => Raise (AttributeError "get")
  end.

(** [obj.values()] *)
Definition py_values (obj : json) : result (list json) :=
  match obj with
  | JObj d => Ok (map snd d)
  | _ => Raise (AttributeError "values")
  end.

Definition as_num (v : json) : option Q :=
  match v with
  | JNum q => Some q
  | JBool true => Some 1%Q
  | JBool false => Some 0%Q
  | _ => None
  end.

Definition py_mul (a b : json) : result json :=
  match as_num a, as_num b with
  | Some x, Some y => Ok (JNum (x * y))
  | _, _ => Raise TypeError
  end.

Definition py_add (a b : json) : result json :=
  match as_num a, as_num b with
  | Some x, Some y => Ok (JNum (x + y))
  | _, _ => Raise TypeError
  end.

(** [sum(values)]: a left fold of [+] from the int 0 *)
Fixpoint py_sum_from (acc : Q) (l : list json) : result Q :=
  match l with
  | [] => Ok acc
  | v :: l' =>
      match as_num v with
      | Some q => py_sum_from (acc + q) l'
      | None => Raise TypeError
      end
  end.

Definition py_sum (l : list json) : result Q := py_sum_from 0 l.

(** [x > 0] *)
Definition Qpositive (x : Q) : bool := negb (Qle_bool x 0).

(** truth value of an object *)
Definition py_truthy (v : json) : bool :=
  match v with
  | JNull => false
  | JBool b => b
  | JNum q => negb (Qeq_bool q 0)
  | JStr s => negb (String.eqb s "")
  | JArr l => match l with [] => false | _ => true end
  | JObj d => match d with [] => false | _ => true end
  end.

(** [len(v)] *)
Definition py_len (v : json) : result nat :=
  match v with
  | JStr s => Ok (String.length s)
  | JArr l => Ok (List.length l)
  | JObj d => Ok (List.length d)
  | _ => Raise TypeError
  end.

Fixpoint all_strings (l : list json) : option (list string) :=
  match l with
  | [] => Some []
  | JStr s :: l' =>
      match all_strings l' with
      | Some ss => Some (s :: ss)
      | None => None
      end
  | _ => None
  end.

Fixpoint chars (s : string) : list string :=
  match s with
  | EmptyString => []
  | String c s' => String c EmptyString :: chars s'
  end.

(** [sep.join(v)]: [v] must be an iterable of strings *)
Definition py_join (sep : string) (v : json) : result string :=
  match v with
  | JArr l =>
      match all_strings l with
      | Some ss => Ok (String.concat sep ss)
      | None => Raise TypeError
      end
  | JStr s => Ok (String.concat sep (chars s))
  | JObj d => Ok (String.concat sep (map fst d))
  | _ => Raise TypeError
  end.

(** ** backend/utils/llm.py *)

(** The process environment, as far as the agents read it: the value of
    [GROQ_API_KEY], if set. *)
Definition environ := option string.

Definition initialize_llm (env : environ) : result unit :=
  match env with
  | None => Raise (ValueError "GROQ_API_KEY environment variable is not set")
  | Some key =>
      if String.eqb key ""
      then Raise (ValueError "GROQ_API_KEY environment variable is not set")
      else Ok tt
  end.

(** What the body of an agent's [try] block comes to: the response was
    decoded by [json.loads]; [json.JSONDecodeError] was raised; any other
    [Exception] was raised, with [str(e)]. *)
Inductive llm_outcome : Type :=
| Decoded (v : json)
| DecodeError
| InvokeError (msg : string).

Definition failed (out : llm_outcome) : bool :=
  match out with
  | Decoded _ => false
  | _ => true
  end.

(** ** backend/agents/resume.py *)

Definition resume_analyst (env : environ) (st : dict) (out : llm_outcome)
  : result dict :=
  _ <- initialize_llm env ;;
  job_application <- subscript st "job_application" ;;
  resume <- py_get job_application "resume" (JObj []) ;;
  resume_text <- py_get resume "text" (JStr "") ;;
  jd <- py_get job_application "job_description" (JObj []) ;;
  jd_text <- py_get jd "description" (JStr "") ;;
  jd_seniority <- py_get jd "seniority_level" (JStr "Mid-Level") ;;
  match out with
  | Decoded res => Ok [("resume_score", res)]
  | DecodeError =>
      Ok [("resume_score", JObj [
        ("score", JNum 0);
        ("strengths", JArr []);
        ("weaknesses", JArr [JStr "Failed to parse resume"]);
        ("seniority_fit", JStr "Unknown");
        ("experience_years", JNum 0);
        ("thought_process", JStr "I encountered an error while analyzing the resume. Please check the format.")])]
  | InvokeError e =>
      Ok [("resume_score", JObj [
        ("score", JNum 0);
        ("strengths", JArr []);
        ("weaknesses", JArr [JStr ("Error: " ++ e)]);
        ("seniority_fit", JStr "Unknown");
        ("experience_years", JNum 0);
        ("thought_process", JStr ("I encountered an error: " ++ e))])]
  end.

(** ** backend/agents/cover_letter.py *)

Definition cover_letter_analyst (env : environ) (st : dict) (out : llm_outcome)
  : result dict :=
  _ <- initialize_llm env ;;
  job_application <- subscript st "job_application" ;;
  cover_letter <- py_get job_application "cover_letter" (JObj []) ;;
  cover_letter_text <- py_get cover_letter "text" (JStr "") ;;
  jd1 <- py_get job_application "job_description" (JObj []) ;;
  company_name <- py_get jd1 "company_name" (JStr "Unknown Company") ;;
  jd2 <- py_get job_application "job_description" (JObj []) ;;
  role <- py_get jd2 "role" (JStr "Unknown Role") ;;
  match out with
  | Decoded res => Ok [("cover_letter_score", res)]
  | DecodeError =>
      Ok [("cover_letter_score", JObj [
        ("score", JNum 0);
        ("clarity_rating", JNum 0);
        ("motivation_level", JStr "Unknown");
        ("company_mention_specificity", JStr "Unknown");
        ("red_flags", JArr [JStr "Failed to parse cover letter"]);
        ("strengths", JArr []);
        ("thought_process", JStr "I encountered an error while analyzing the cover letter. Please check the format.")])]
  | InvokeError e =>
      Ok [("cover_letter_score", JObj [
        ("score", JNum 0);
        ("clarity_rating", JNum 0);
        ("motivation_level", JStr "Unknown");
        ("company_mention_specificity", JStr "Unknown");
        ("red_flags", JArr [JStr ("Error: " ++ e)]);
        ("strengths", JArr []);
        ("thought_process", JStr ("I encountered an error: " ++ e))])]
  end.

(** ** backend/agents/jd_match.py *)

Definition jd_match_analyst (env : environ) (st : dict) (out : llm_outcome)
  : result dict :=
  _ <- initialize_llm env ;;
  job_application <- subscript st "job_application" ;;
  resume <- py_get job_application "resume" (JObj []) ;;
  resume_text <- py_get resume "text" (JStr "") ;;
  jd <- py_get job_application "job_description" (JObj []) ;;
  required_skills <- py_get jd "skills_required" (JArr []) ;;
  nice_to_have <- py_get jd "skills_nice_to_have" (JArr []) ;;
  required_str <- (if py_truthy required_skills
                   then py_join ", " required_skills
                   else Ok "None specified") ;;
  nice_to_have_str <- (if py_truthy nice_to_have
                       then py_join ", " nice_to_have
                       else Ok "None specified") ;;
  match out with
  | Decoded res => Ok [("jd_match_score", res)]
  | DecodeError =>
      Ok [("jd_match_score", JObj [
        ("score", JNum 0);
        ("required_skills_matched", JArr []);
        ("required_skills_missing", required_skills);
        ("nice_to_have_matched", JArr []);
        ("match_percentage", JNum 0);
        ("skill_depth_assessment", JStr "Unknown");
        ("thought_process", JStr "I encountered an error while analyzing the skill match. Please check the format.")])]
  | InvokeError e =>
      Ok [("jd_match_score", JObj [
        ("score", JNum 0);
        ("required_skills_matched", JArr []);
        ("required_skills_missing", required_skills);
        ("nice_to_have_matched", JArr []);
        ("match_percentage", JNum 0);
        ("skill_depth_assessment", JStr "Unknown");
        ("thought_process", JStr ("I encountered an error: " ++ e))])]
  end.

(** ** backend/agents/github.py *)

Definition github_analyst (env : environ) (st : dict) (out : llm_outcome)
  : result dict :=
  _ <- initialize_llm env ;;
  job_application <- subscript st "job_application" ;;
  github_data <- py_get job_application "github" (JObj []) ;;
  repos <- py_get github_data "repo_list" (JArr []) ;;
  github_username <- py_get github_data "username" (JStr "Unknown") ;;
  match out with
  | Decoded res => Ok [("github_score", res)]
  | DecodeError =>
      total_repos <- py_len repos ;;
      Ok [("github_score", JObj [
        ("score", JNum 0);
        ("total_repos", JNum (inject_Z (Z.of_nat total_repos)));
        ("high_quality_repos", JArr []);
        ("recent_activity", JStr "Unknown");
        ("language_diversity", JArr []);
        ("portfolio_strength", JStr "Unknown");
        ("red_flags", JArr [JStr "Failed to parse GitHub data"]);
        ("thought_process", JStr "I encountered an error while analyzing the GitHub profile. Please check the data format.")])]
  | InvokeError e =>
      total_repos <- py_len repos ;;
      Ok [("github_score", JObj [
        ("score", JNum 0);
        ("total_repos", JNum (inject_Z (Z.of_nat total_repos)));
        ("high_quality_repos", JArr []);
        ("recent_activity", JStr "Unknown");
        ("language_diversity", JArr []);
        ("portfolio_strength", JStr "Unknown");
        ("red_flags", JArr [JStr ("Error: " ++ e)]);
        ("thought_process", JStr ("I encountered an error: " ++ e))])]
  end.

(** ** backend/agents/location.py *)

Definition location_coordinator (env : environ) (st : dict) (out : llm_outcome)
  : result dict :=
  _ <- initialize_llm env ;;
  job_application <- subscript st "job_application" ;;
  personal_info1 <- py_get job_application "personal_info" (JObj []) ;;
  applicant_location <- py_get personal_info1 "location" (JObj []) ;;
  applicant_city <- py_get applicant_location "city" (JStr "Unknown") ;;
  applicant_country <- py_get applicant_location "country" (JStr "Unknown") ;;
  personal_info2 <- py_get job_application "personal_info" (JObj []) ;;
  willing_to_relocate <- py_get personal_info2 "willing_to_relocate" (JBool false) ;;
  job_description <- py_get job_application "job_description" (JObj []) ;;
  job_location_type <- py_get job_description "location_type" (JStr "Unknown") ;;
  job_location <- py_get job_description "location" (JObj []) ;;
  job_city <- py_get job_location "city" (JStr "Unknown") ;;
  job_country <- py_get job_location "country" (JStr "Unknown") ;;
  match out with
  | Decoded res => Ok [("location_score", res)]
  | DecodeError =>
      Ok [("location_score", JObj [
        ("score", JNum 50);
        ("location_match", JStr "Unknown");
        ("feasibility", JStr "Unknown");
        ("relocation_required", JBool false);
        ("visa_sponsorship_needed", JBool false);
        ("commute_feasibility", JStr "Unknown");
        ("risk_factors", JArr [JStr "Failed to parse location data"]);
        ("thought_process", JStr "I encountered an error while analyzing location fit. Please check the data format.")])]
  | InvokeError e =>
      Ok [("location_score", JObj [
        ("score", JNum 50);
        ("location_match", JStr "Unknown");
        ("feasibility", JStr "Unknown");
        ("relocation_required", JBool false);
        ("visa_sponsorship_needed", JBool false);
        ("commute_feasibility", JStr "Unknown");
        ("risk_factors", JArr [JStr ("Error: " ++ e)]);
        ("thought_process", JStr ("I encountered an error: " ++ e))])]
  end.

(** ** backend/agents/fairness.py *)

Definition zero_adjustments : json :=
  JObj [("resume_adjustment", JNum 0);
        ("github_adjustment", JNum 0);
        ("jd_match_adjustment", JNum 0);
        ("cover_letter_adjustment", JNum 0);
        ("location_adjustment", JNum 0)].

Definition fairness_auditor (env : environ) (st : dict) (out : llm_outcome)
  : result dict :=
  _ <- initialize_llm env ;;
  job_application <- subscript st "job_application" ;;
  personal_info <- py_get job_application "personal_info" (JObj []) ;;
  candidate_name <- py_get personal_info "name" (JStr "Unknown") ;;
  candidate_location <- py_get personal_info "location" (JObj []) ;;
  gender <- py_get personal_info "gender" (JStr "Not disclosed") ;;
  age <- py_get personal_info "age" (JStr "Not disclosed") ;;
  let resume_score := state_get st "resume_score" (JObj []) in
  let cover_letter_score := state_get st "cover_letter_score" (JObj []) in
  let jd_match_score := state_get st "jd_match_score" (JObj []) in
  let github_score := state_get st "github_score" (JObj []) in
  let location_score := state_get st "location_score" (JObj []) in
  s_resume <- py_get resume_score "score" (JNum 0) ;;
  s_cover_letter <- py_get cover_letter_score "score" (JNum 0) ;;
  s_jd_match <- py_get jd_match_score "score" (JNum 0) ;;
  s_github <- py_get github_score "score" (JNum 0) ;;
  s_location <- py_get location_score "score" (JNum 0) ;;
  match out with
  | Decoded res => Ok [("fairness_audit", res)]
  | DecodeError =>
      Ok [("fairness_audit", JObj [
        ("bias_detected", JBool false);
        ("bias_types_found", JArr []);
        ("score_adjustments", zero_adjustments);
        ("total_adjustment", JNum 0);
        ("concerns", JArr [JStr "Failed to parse fairness audit"]);
        ("recommendations", JArr [JStr "Please check data format"]);
        ("thought_process", JStr "I encountered an error while performing the fairness audit. Please check the data format.")])]
  | InvokeError e =>
      Ok [("fairness_audit", JObj [
        ("bias_detected", JBool false);
        ("bias_types_found", JArr []);
        ("score_adjustments", zero_adjustments);
        ("total_adjustment", JNum 0);
        ("concerns", JArr [JStr ("Error: " ++ e)]);
        ("recommendations", JArr []);
        ("thought_process", JStr ("I encountered an error: " ++ e))])]
  end.

(** ** backend/agents/referee.py *)

Definition default_weights : json :=
  JObj [("resume", JNum (2#10));
        ("cover_letter", JNum (15#100));
        ("jd_match", JNum (3#10));
        ("github", JNum (2#10));
        ("location", JNum (15#100))].

(** [state.get(key, {}).get("score", 0)] *)
Definition collect_score (st : dict) (key : string) : result json :=
  py_get (state_get st key (JObj [])) "score" (JNum 0).

(** [{k: v / total_weight for k, v in weights.items()}] *)
Fixpoint divide_all (total : Q) (d : dict) : result dict :=
  match d with
  | [] => Ok []
  | (k, v) :: d' =>
      match as_num v with
      | Some q =>
          rest <- divide_all total d' ;;
          Ok ((k, JNum (q / total)) :: rest)
      | None => Raise TypeError
      end
  end.

(** Lines 36-39: the weights are divided by their sum when it is
    positive, and left as they are otherwise. *)
Definition normalize_weights (weights : json) : result dict :=
  vals <- py_values weights ;;
  total_weight <- py_sum vals ;;
  match weights with
  | JObj d => if Qpositive total_weight then divide_all total_weight d else Ok d
  | _ => Raise (AttributeError "items")
  end.

(** [weights.get(k, dflt)] on the dict left by [normalize_weights] *)
Definition weight_of (weights : dict) (k : string) (dflt : Q) : json :=
  match lookup k weights with
  | Some v => v
  | None => JNum dflt
  end.

(** The list comprehension behind [weights_str] reads, for every key [k]
    of the weights, [state.get(f'{k}_score', {}).get('score', 0)]; the
    text it builds only reaches the prompt. *)
Fixpoint format_weights (st : dict) (weights : dict) : result unit :=
  match weights with
  | [] => Ok tt
  | (k, v) :: rest =>
      match as_num v with
      | Some _ =>
          _ <- collect_score st (k ++ "_score") ;;
          format_weights st rest
      | None => Raise TypeError
      end
  end.

(** Lines 127-133, in the order the source adds the terms. *)
Definition weighted_sum (weights : dict)
  (jd_match_score github_score resume_score cover_letter_score location_score : json)
  : result json :=
  t1 <- py_mul jd_match_score (weight_of weights "jd_match" (3#10)) ;;
  t2 <- py_mul github_score (weight_of weights "github" (2#10)) ;;
  t3 <- py_mul resume_score (weight_of weights "resume" (2#10)) ;;
  t4 <- py_mul cover_letter_score (weight_of weights "cover_letter" (15#100)) ;;
  t5 <- py_mul location_score (weight_of weights "location" (15#100)) ;;
  s2 <- py_add t1 t2 ;;
  s3 <- py_add s2 t3 ;;
  s4 <- py_add s3 t4 ;;
  py_add s4 t5.

(** The local variables of [referee_agent] when it reaches its [try]. *)
Record referee_locals : Type := {
  resume_score : json;
  cover_letter_score : json;
  jd_match_score : json;
  github_score : json;
  location_score : json;
  weights : dict;
  strictness : json;
  fairness_audit : json;
  total_fairness_adjustment : json;
  bias_detected : json;
  candidate_name : json;
  job_role : json;
  company_name : json;
  weighted_before_fairness : json
}.

(** Lines 16-133: everything [referee_agent] does before its [try]. *)
Definition referee_prepare (env : environ) (st : dict) : result referee_locals :=
  _ <- initialize_llm env ;;
  resume_score <- collect_score st "resume_score" ;;
  cover_letter_score <- collect_score st "cover_letter_score" ;;
  jd_match_score <- collect_score st "jd_match_score" ;;
  github_score <- collect_score st "github_score" ;;
  location_score <- collect_score st "location_score" ;;
  let hiring_criteria := state_get st "hiring_criteria" (JObj []) in
  weights0 <- py_get hiring_criteria "weights" default_weights ;;
  strictness <- py_get hiring_criteria "strictness" (JStr "medium") ;;
  weights <- normalize_weights weights0 ;;
  let fairness_audit := state_get st "fairness_audit" (JObj []) in
  adjustments <- py_get fairness_audit "score_adjustments" (JObj []) ;;
  total_fairness_adjustment <- py_get fairness_audit "total_adjustment" (JNum 0) ;;
  bias_detected <- py_get fairness_audit "bias_detected" (JBool false) ;;
  job_application <- subscript st "job_application" ;;
  personal_info <- py_get job_application "personal_info" (JObj []) ;;
  candidate_name <- py_get personal_info "name" (JStr "Unknown") ;;
  jd1 <- py_get job_application "job_description" (JObj []) ;;
  job_role <- py_get jd1 "role" (JStr "Unknown") ;;
  jd2 <- py_get job_application "job_description" (JObj []) ;;
  company_name <- py_get jd2 "company_name" (JStr "Unknown") ;;
  _ <- format_weights st weights ;;
  weighted_before_fairness <-
    weighted_sum weights jd_match_score github_score resume_score
                 cover_letter_score location_score ;;
  Ok {| resume_score := resume_score;
        cover_letter_score := cover_letter_score;
        jd_match_score := jd_match_score;
        github_score := github_score;
        location_score := location_score;
        weights := weights;
        strictness := strictness;
        fairness_audit := fairness_audit;
        total_fairness_adjustment := total_fairness_adjustment;
        bias_detected := bias_detected;
        candidate_name := candidate_name;
        job_role := job_role;
        company_name := company_name;
        weighted_before_fairness := weighted_before_fairness |}.

(** The ["weighted_scores"] entry both handlers build. *)
Definition weighted_scores (c : referee_locals) : result json :=
  jd <- py_mul (jd_match_score c) (weight_of (weights c) "jd_match" (3#10)) ;;
  gh <- py_mul (github_score c) (weight_of (weights c) "github" (2#10)) ;;
  re <- py_mul (resume_score c) (weight_of (weights c) "resume" (2#10)) ;;
  cl <- py_mul (cover_letter_score c) (weight_of (weights c) "cover_letter" (15#100)) ;;
  lo <- py_mul (location_score c) (weight_of (weights c) "location" (15#100)) ;;
  Ok (JObj [("jd_match_weighted", jd);
            ("github_weighted", gh);
            ("resume_weighted", re);
            ("cover_letter_weighted", cl);
            ("location_weighted", lo)]).

(** Lines 135-196: the [try] and its two handlers. *)
Definition referee_decide (c : referee_locals) (out : llm_outcome) : result dict :=
  match out with
  | Decoded res => Ok [("final_verdict", res)]
  | DecodeError =>
      final_score <- py_add (weighted_before_fairness c) (total_fairness_adjustment c) ;;
      ws <- weighted_scores c ;;
      Ok [("final_verdict", JObj [
        ("final_score", final_score);
        ("verdict", JStr "MAYBE");
        ("weighted_scores", ws);
        ("fairness_adjustment_applied", total_fairness_adjustment c);
        ("decision_reasoning", JStr "Unable to parse full reasoning due to data format error.");
        ("key_strengths", JArr []);
        ("key_concerns", JArr [JStr "Data format error in analysis"]);
        ("next_steps", JStr "Please review data and rerun analysis.");
        ("thought_process", JStr "I encountered an error while making the final decision using the custom weights. The preliminary weighted score is approximately the calculated value, but please check the data format.")])]
  | InvokeError e =>
      final_score <- py_add (weighted_before_fairness c) (total_fairness_adjustment c) ;;
      ws <- weighted_scores c ;;
      Ok [("final_verdict", JObj [
        ("final_score", final_score);
        ("verdict", JStr "MAYBE");
        ("weighted_scores", ws);
        ("fairness_adjustment_applied", total_fairness_adjustment c);
        ("decision_reasoning", JStr ("Error: " ++ e));
        ("key_strengths", JArr []);
        ("key_concerns", JArr [JStr ("Error: " ++ e)]);
        ("next_steps", JStr "Please review the error and rerun analysis.");
        ("thought_process", JStr ("I encountered an error while applying custom weights: " ++ e))])]
  end.

Definition referee_agent (env : environ) (st : dict) (out : llm_outcome)
  : result dict :=
  c <- referee_prepare env st ;;
  referee_decide c out.

(** ** backend/graph.py *)


(** The nodes, in the order of the [add_node] calls. *)
Definition graph_nodes : list string :=
  ["resume_analyst"; "cover_letter_analyst"; "jd_match_analyst";
   "github_analyst"; "location_coordinator"; "fairness_auditor";
   "referee_agent"].


(** The function [add_node] binds to each name. *)
Definition run_node (name : string) (env : environ) (st : dict) (out : llm_outcome)
  : option (result dict) :=
  if String.eqb name "resume_analyst" then Some (resume_analyst env st out)
  else if String.eqb name "cover_letter_analyst" then Some (cover_letter_analyst env st out)
  else if String.eqb name "jd_match_analyst" then Some (jd_match_analyst env st out)
  else if String.eqb name "github_analyst" then Some (github_analyst env st out)
  else if String.eqb name "location_coordinator" then Some (location_coordinator env st out)
  else if String.eqb name "fairness_auditor" then Some (fairness_auditor env st out)
  else if String.eqb name "referee_agent" then Some (referee_agent env st out)
  else None.

Definition mem (x : string) (l : list string) : bool := existsb (String.eqb x) l.





(** ** backend/main.py: [stream_agent_analysis] *)

(** An event of [hiring_graph.astream_events], as the loop reads it:
    [event.get("event")], [metadata.get("langgraph_node", "")] and
    [data.get("output", {})]. *)
Record graph_event : Type := {
  event_type : string;
  langgraph_node : string;
  output : json
}.

Definition agent_display_names : list (string * string) :=
  [("resume_analyst", "Resume Analyst");
   ("cover_letter_analyst", "Cover Letter Expert");
   ("jd_match_analyst", "JD Match Manager");
   ("github_analyst", "GitHub Analyst");
   ("location_coordinator", "Location Coordinator");
   ("fairness_auditor", "Fairness Auditor");
   ("referee_agent", "Referee Agent")].

Fixpoint display_name (node : string) (names : list (string * string)) : option string :=
  match names with
  | [] => None
  | (k, v) :: rest => if String.eqb node k then Some v else display_name node rest
  end.

(** The [if]/[elif] chain of lines 122-136. *)
Definition score_key_of (node : string) : option string :=
  if String.eqb node "resume_analyst" then Some "resume_score"
  else if String.eqb node "cover_letter_analyst" then Some "cover_letter_score"
  else if String.eqb node "jd_match_analyst" then Some "jd_match_score"
  else if String.eqb node "github_analyst" then Some "github_score"
  else if String.eqb node "location_coordinator" then Some "location_score"
  else if String.eqb node "fairness_auditor" then Some "fairness_audit"
  else if String.eqb node "referee_agent" then Some "final_verdict"
  else None.

(** [key in v] *)
Definition py_contains (key : string) (v : json) : result bool :=
  match v with
  | JObj d => Ok (match lookup key d with Some _ => true | None => false end)
  | JArr l =>
      Ok (existsb (fun x => match x with JStr s => String.eqb s key | _ => false end) l)
  | JStr s => Ok (match String.index 0 key s with Some _ => true | None => false end)
  | _ => Raise TypeError
  end.

(** [v[key]] for a string key *)
Definition py_item (v : json) (key : string) : result json :=
  match v with
  | JObj d => subscript d key
  | _ => Raise TypeError
  end.

(** The payloads handed to [json.dumps]; the framing ["data: ...\n\n"]
    is left out. *)
Definition verdict_message (agent_name : string) (thought_process verdict final_score agent_output : json) : json :=
  JObj [("agent", JStr agent_name);
        ("message", thought_process);
        ("status", JStr "complete");
        ("type", JStr "verdict");
        ("verdict", verdict);
        ("final_score", final_score);
        ("full_verdict", agent_output)].

Definition agent_message (agent_name : string) (thought_process score : json) : json :=
  JObj [("agent", JStr agent_name);
        ("message", thought_process);
        ("status", JStr "done");
        ("type", JStr "analysis");
        ("score", score)].

Definition completion_message : json :=
  JObj [("agent", JStr "System");
        ("message", JStr "All agents have completed analysis.");
        ("status", JStr "complete");
        ("type", JStr "system")].

Definition error_message (e : exn) : json :=
  JObj [("agent", JStr "System");
        ("message", JStr ("Error during analysis: " ++ exn_str e));
        ("status", JStr "error");
        ("type", JStr "error")].

(** The body of the [async for] loop: what it yields for one event, if
    anything, or the exception it raises. *)
Definition handle_event (ev : graph_event) : result (option json) :=
  if String.eqb (event_type ev) "on_chain_end" then
    if negb (String.eqb (langgraph_node ev) "") then
      match display_name (langgraph_node ev) agent_display_names with
      | Some agent_name =>
          match score_key_of (langgraph_node ev) with
          | Some score_key =>
              present <- py_contains score_key (output ev) ;;
              if present then
                agent_output <- py_item (output ev) score_key ;;
                thought_process <- py_get agent_output "thought_process" (JStr "") ;;
                if String.eqb (langgraph_node ev) "referee_agent" then
                  verdict <- py_get agent_output "verdict" (JStr "UNKNOWN") ;;
                  final_score <- py_get agent_output "final_score" (JNum 0) ;;
                  Ok (Some (verdict_message agent_name thought_process verdict
                                            final_score agent_output))
                else
                  score <- py_get agent_output "score" (JNum 0) ;;
                  Ok (Some (agent_message agent_name thought_process score))
              else Ok None
          | None => Ok None
          end
      | None => Ok None
      end
    else Ok None
  else Ok None.

(** The generator: [events] are the events the graph delivers, [fin] is
    the exception the graph raises in place of a further event, if it
    does (a node that raises ends the iteration this way).  The list is
    what the generator yields, in order. *)
Fixpoint stream_agent_analysis (events : list graph_event) (fin : option exn)
  : list json :=
  match events with
  | [] =>
      match fin with
      | None => [completion_message]
      | Some e => [error_message e]
      end
  | ev :: rest =>
      match handle_event ev with
      | Raise e => [error_message e]
      | Ok None => stream_agent_analysis rest fin
      | Ok (Some m) => m :: stream_agent_analysis rest fin
      end
  end.

(** Field readers for the payloads. *)
Definition field (k : string) (v : json) : option json :=
  match v with
  | JObj d => lookup k d
  | _ => None
  end.





Definition layer1 : list string :=
  ["resume_analyst"; "cover_letter_analyst"; "jd_match_analyst";
   "github_analyst"; "location_coordinator"].






(** The messages the loop yields, up to the first exception. *)
Fixpoint task_messages (events : list graph_event) : list json :=
  match events with
  | [] => []
  | ev :: rest =>
      match handle_event ev with
      | Raise _ => []
      | Ok None => task_messages rest
      | Ok (Some m) => m :: task_messages rest
      end
  end.


Definition no_raise (ev : graph_event) : bool :=
  match handle_event ev with
  | Raise _ => false
  | Ok _ => true
  end.

(** ** backend/utils/preprocessor.py

    Strings are byte strings (UTF-8).  [str.lower] is modelled on the
    letters A-Z, which is what it does to the ASCII keywords searched
    below; [str.strip], whose whitespace is Unicode's, is a parameter. *)

Definition lower_char (c : ascii) : ascii :=
  let n := nat_of_ascii c in
  if (65 <=? n)%nat && (n <=? 90)%nat then ascii_of_nat (n + 32) else c.

Fixpoint lower (s : string) : string :=
  match s with
  | EmptyString => EmptyString
  | String c s' => String (lower_char c) (lower s')
  end.

(** [needle in hay] for strings *)
Definition contains (needle hay : string) : bool :=
  match String.index 0 needle hay with
  | Some _ => true
  | None => false
  end.

Fixpoint drop (n : nat) (s : string) : string :=
  match n, s with
  | O, _ => s
  | S n', String _ s' => drop n' s'
  | S _, EmptyString => EmptyString
  end.

(** [s.split(sep)[-1]]: the scan goes from the left, and an occurrence
    of [sep] starts a new part after it. *)
Fixpoint last_part_from (sep : string) (skip : nat) (part s : string) : string :=
  match s with
  | EmptyString => part
  | String _ s' =>
      match skip with
      | S k => last_part_from sep k part s'
      | O =>
          if prefix sep s
          then last_part_from sep (String.length sep - 1) (drop (String.length sep) s) s'
          else last_part_from sep O part s'
      end
  end.

Definition last_part (sep s : string) : string := last_part_from sep 0 s s.

(** [s.rstrip("/")] *)
Fixpoint rstrip_slash (s : string) : string :=
  match s with
  | EmptyString => EmptyString
  | String c s' =>
      match rstrip_slash s' with
      | EmptyString => if Ascii.eqb c "/" then EmptyString else String c EmptyString
      | r => String c r
      end
  end.

Definition newline : string := String (ascii_of_nat 10) EmptyString.

(** [extract_pdf_text]: [pdf] is what reading the upload and extracting
    the text of its pages comes to, the texts of the pages or the
    exception raised on the way. *)
Definition extract_pdf_text (strip : string -> string) (pdf : result (list string))
  : result string :=
  match pdf with
  | Ok pages =>
      Ok (strip (fold_left (fun text page => text ++ (page ++ newline)) pages ""))
  | Raise e => Raise (ValueError ("Error parsing PDF: " ++ exn_str e))
  end.

(** [a == b] *)
Fixpoint py_eq (a b : json) {struct a} : bool :=
  match a, b with
  | JNull, JNull => true
  | JStr s, JStr t => String.eqb s t
  | JArr la, JArr lb =>
      (fix go (la lb : list json) {struct la} : bool :=
         match la, lb with
         | [], [] => true
         | x :: la', y :: lb' => py_eq x y && go la' lb'
         | _, _ => false
         end) la lb
  | JObj da, JObj db =>
      (List.length da =? List.length db)%nat
      && (fix go (da : list (string * json)) : bool :=
            match da with
            | [] => true
            | (k, v) :: da' =>
                match lookup k db with
                | Some v' => py_eq v v'
                | None => false
                end && go da'
            end) da
  | _, _ =>
      match as_num a, as_num b with
      | Some x, Some y => Qeq_bool x y
      | _, _ => false
      end
  end.

(** [a < b]: numbers, strings, and lists by their first differing
    elements; anything else is a [TypeError]. *)
Fixpoint py_lt (a b : json) {struct a} : result bool :=
  match a, b with
  | JStr s, JStr t => Ok (String.ltb s t)
  | JArr la, JArr lb =>
      (fix go (la lb : list json) {struct la} : result bool :=
         match la, lb with
         | [], [] => Ok false
         | [], _ :: _ => Ok true
         | _ :: _, [] => Ok false
         | x :: la', y :: lb' => if py_eq x y then go la' lb' else py_lt x y
         end) la lb
  | _, _ =>
      match as_num a, as_num b with
      | Some x, Some y => Ok (negb (Qle_bool y x))
      | _, _ => Raise TypeError
      end
  end.

(** [for x in v] *)
Definition py_iter (v : json) : result (list json) :=
  match v with
  | JArr l => Ok l
  | JObj d => Ok (map (fun kv => JStr (fst kv)) d)
  | JStr s => Ok (map JStr (chars s))
  | _ => Raise TypeError
  end.

(** The dict lines 78-85 append for one repository. *)
Definition repo_entry (repo : json) : result json :=
  name <- py_get repo "name" (JStr "") ;;
  description <- py_get repo "description" (JStr "") ;;
  language <- py_get repo "language" (JStr "Unknown") ;;
  stars <- py_get repo "stargazers_count" (JNum 0) ;;
  last_updated <- py_get repo "updated_at" (JStr "") ;;
  url <- py_get repo "html_url" (JStr "") ;;
  Ok (JObj [("name", name);
            ("description", description);
            ("language", language);
            ("stars", stars);
            ("last_updated", last_updated);
            ("url", url)]).

Fixpoint repo_entries (repos_data : list json) : result (list json) :=
  match repos_data with
  | [] => Ok []
  | repo :: rest =>
      e <- repo_entry repo ;;
      es <- repo_entries rest ;;
      Ok (e :: es)
  end.

(** [sorted(repos, key=lambda x: x["stars"], reverse=True)]: a stable
    sort by decreasing key.  An entry goes in front of the first entry
    whose key is not greater than its own; the sort raises when it
    compares two keys that [<] does not order. *)
Fixpoint insert_by_stars (x : json) (sorted : list json) : result (list json) :=
  match sorted with
  | [] => Ok [x]
  | y :: rest =>
      kx <- py_item x "stars" ;;
      ky <- py_item y "stars" ;;
      lt <- py_lt kx ky ;;
      if lt : bool
      then r <- insert_by_stars x rest ;; Ok (y :: r)
      else Ok (x :: sorted)
  end.

Fixpoint sort_by_stars (repos : list json) : result (list json) :=
  match repos with
  | [] => Ok []
  | x :: rest =>
      s <- sort_by_stars rest ;;
      insert_by_stars x s
  end.

(** What [requests.get] comes to: an exception, or a response with its
    status code and what [response.json()] gives ([None] when it
    raises). *)
Inductive http_reply : Type :=
| RequestFailed
| Reply (status_code : Z) (body : option json).

Definition github_username (strip : string -> string) (github_url : string) : string :=
  if contains "github.com/" github_url
  then rstrip_slash (last_part "github.com/" github_url)
  else strip github_url.

Definition fetch_github_repos (strip : string -> string)
  (http : string -> http_reply) (github_url : string) : string * list json :=
  let username := github_username strip github_url in
  let api_url := "https://api.github.com/users/" ++ username ++ "/repos" in
  match http api_url with
  | RequestFailed => (github_url, [])
  | Reply status_code body =>
      if (status_code =? 404)%Z then (username, [])
      else if negb (status_code =? 200)%Z then (username, [])
      else
        match body with
        | None => (github_url, [])
        | Some repos_data =>
            match (items <- py_iter repos_data ;;
                   repos <- repo_entries items ;;
                   sort_by_stars repos) with
            | Ok repos => (username, repos)
            | Raise _ => (github_url, [])
            end
        end
  end.

Definition parse_job_description (jd_text : string) : json :=
  let jd_lower := lower jd_text in
  let role_title :=
    if contains "senior" jd_lower then "Senior Engineer"
    else if contains "junior" jd_lower then "Junior Engineer"
    else if contains "engineer" jd_lower then "Engineer"
    else "Unknown Role" in
  let location_type :=
    if contains "remote" jd_lower then "Remote"
    else if contains "on-site" jd_lower || contains "onsite" jd_lower then "On-site"
    else if contains "hybrid" jd_lower then "Hybrid"
    else "Unknown" in
  JObj [("raw_text", JStr jd_text);
        ("role_title", JStr role_title);
        ("location_type", JStr location_type);
        ("description", JStr jd_text);
        ("skills_required", JArr []);
        ("skills_nice_to_have", JArr []);
        ("company_name", JStr "Unknown Company");
        ("seniority_level", JStr "Mid-Level")].

Definition enrich_candidate_data (strip : string -> string)
  (pdf : result (list string)) (http : string -> http_reply)
  (file_name github_url cover_letter_text jd_text : string) : result json :=
  resume_text <- extract_pdf_text strip pdf ;;
  let (github_username, github_repos) := fetch_github_repos strip http github_url in
  let parsed_jd := parse_job_description jd_text in
  Ok (JObj [
    ("personal_info",
     JObj [("name", JStr "Candidate");
           ("email", JStr "candidate@example.com");
           ("location", JObj [("city", JStr "Unknown"); ("country", JStr "Unknown")]);
           ("github_url", JStr github_url);
           ("willing_to_relocate", JBool false);
           ("gender", JStr "Not disclosed");
           ("age", JStr "Not disclosed")]);
    ("resume", JObj [("text", JStr resume_text); ("file_name", JStr file_name)]);
    ("cover_letter", JObj [("text", JStr cover_letter_text)]);
    ("github",
     JObj [("username", JStr github_username);
           ("url", JStr github_url);
           ("repo_list", JArr github_repos)]);
    ("job_description", parsed_jd)]).

(** ** backend/main.py: the initial state and the two endpoints *)

Definition default_criteria : json :=
  JObj [("weights", default_weights); ("strictness", JStr "medium")].

(** Lines 56-80 of [stream_agent_analysis]: the state handed to the
    graph.  [JNull] is Python's [None]. *)
Definition initial_state (job_application hiring_criteria : json) : dict :=
  let hiring_criteria :=
    match hiring_criteria with
    | JNull => default_criteria
    | _ => hiring_criteria
    end in
  [("job_application", job_application);
   ("hiring_criteria", hiring_criteria);
   ("resume_score", JObj []);
   ("cover_letter_score", JObj []);
   ("jd_match_score", JObj []);
   ("github_score", JObj []);
   ("location_score", JObj []);
   ("fairness_audit", JObj []);
   ("final_verdict", JObj [])].

(** What an endpoint answers: an HTTP error, or the streaming response
    over [stream_agent_analysis(job_application, criteria)]. *)
Inductive http_response : Type :=
| HTTPError (status_code : nat) (detail : string)
| StreamingResponse (job_application criteria : json).

(** The exceptions the [except] clauses of the endpoints tell apart. *)
Inductive endpoint_exn : Type :=
| Value_error (msg : string)
| HTTP_exception (status_code : nat) (detail : string)
| Other_exception (msg : string).

(** [str(e)]; for an [HTTPException] Starlette gives the status code and
    the detail. *)
Definition endpoint_exn_str (e : endpoint_exn) : string :=
  match e with
  | Value_error m => m
  | HTTP_exception c d => NilZero.string_of_uint (Nat.to_uint c) ++ ": " ++ d
  | Other_exception m => m
  end.

Fixpoint ends_with (suffix s : string) : bool :=
  String.eqb suffix s
  || match s with
     | EmptyString => false
     | String _ s' => ends_with suffix s'
     end.

(** The [try] block of [analyze_candidate].  [loads] is [json.loads]
    ([None] when it raises [JSONDecodeError]); an upload always counts as
    true, so the first check never fires. *)
Definition analyze_candidate_body (strip : string -> string)
  (loads : string -> option json) (pdf : result (list string))
  (http : string -> http_reply) (filename : option string)
  (github_url cover_letter jd_text : string) (hiring_criteria : option string)
  : endpoint_exn + http_response :=
  match filename with
  | None => inl (Other_exception "'NoneType' object has no attribute 'lower'")
  | Some file_name =>
      if negb (ends_with ".pdf" (lower file_name))
      then inl (HTTP_exception 400 "Resume must be a PDF file")
      else
        let parsed :=
          match hiring_criteria with
          | None => inr default_criteria
          | Some text =>
              if String.eqb text "" then inr default_criteria
              else match loads text with
                   | Some criteria => inr criteria
                   | None => inl (HTTP_exception 400 "Invalid hiring_criteria JSON")
                   end
          end in
        match parsed with
        | inl e => inl e
        | inr criteria =>
            match enrich_candidate_data strip pdf http file_name github_url
                                        cover_letter jd_text with
            | Raise (ValueError m) => inl (Value_error m)
            | Raise e => inl (Other_exception (exn_str e))
            | Ok job_application => inr (StreamingResponse job_application criteria)
            end
        end
  end.

(** The [except] clauses of [analyze_candidate], in their order. *)
Definition analyze_candidate (strip : string -> string)
  (loads : string -> option json) (pdf : result (list string))
  (http : string -> http_reply) (filename : option string)
  (github_url cover_letter jd_text : string) (hiring_criteria : option string)
  : http_response :=
  match analyze_candidate_body strip loads pdf http filename github_url
                               cover_letter jd_text hiring_criteria with
  | inr r => r
  | inl (Value_error m) => HTTPError 400 m
  | inl (HTTP_exception c d) => HTTPError c d
  | inl e => HTTPError 500 ("Internal error: " ++ endpoint_exn_str e)
  end.

(** The [try] block of [analyze_application]; the request model has made
    [job_application] a dict and supplied the default criteria. *)
Definition analyze_application_body (job_application : dict) (hiring_criteria : json)
  : endpoint_exn + http_response :=
  match job_application with
  | [] => inl (HTTP_exception 400 "job_application field is required")
  | _ => inr (StreamingResponse (JObj job_application) hiring_criteria)
  end.

(** The [except] clauses of [analyze_application]: there is none for
    [HTTPException]. *)
Definition analyze_application (job_application : dict) (hiring_criteria : json)
  : http_response :=
  match analyze_application_body job_application hiring_criteria with
  | inr r => r
  | inl (Value_error m) => HTTPError 400 m
  | inl e => HTTPError 500 ("Internal error: " ++ endpoint_exn_str e)
  end.

(** The state the graph starts from for a response, if it streams. *)
Definition started_from (r : http_response) : option dict :=
  match r with
  | StreamingResponse job_application criteria =>
      Some (initial_state job_application criteria)
  | HTTPError _ _ => None
  end.

Definition status_of (r : http_response) : nat :=
  match r with
  | HTTPError c _ => c
  | StreamingResponse _ _ => 200
  end.

(** ** Vocabulary for the statements about the referee *)

(** The weights mapping [referee_agent] reads at line 27. *)
Definition supplied_weights (st : dict) : result json :=
  py_get (state_get st "hiring_criteria" (JObj [])) "weights" default_weights.

(** The weight line 128-132 uses for source [k], in terms of the supplied
    mapping [w0] and its sum [total]. *)
Definition effective_weight (w0 : dict) (total : Q) (k : string) (dflt : Q) : option Q :=
  match lookup k w0 with
  | None => Some dflt
  | Some v =>
      match as_num v with
      | Some q => Some (if Qpositive total then q / total else q)
      | None => None
      end
  end.



(** The five scores of [referee_locals], by state key. *)
Definition collected_scores (c : referee_locals) : dict :=
  [("resume_score", resume_score c);
   ("cover_letter_score", cover_letter_score c);
   ("jd_match_score", jd_match_score c);
   ("github_score", github_score c);
   ("location_score", location_score c)].

(** The threshold table of the specification (section 4.4, step 4); the
    source has it only as prompt text (referee.py, lines 97-100). *)
Definition spec_verdict (strictness : string) (final_score : Q) : option string :=
  let band (hi lo : Q) :=
    if Qpositive (final_score - hi) then "SHORTLISTED"
    else if Qle_bool lo final_score then "MAYBE"
    else "REJECTED" in
  if String.eqb strictness "high" then Some (band 85 70)
  else if String.eqb strictness "medium" then Some (band 75 60)
  else if String.eqb strictness "low" then Some (band 60 45)
  else None.


(** ** Sample runs *)

Definition sample_application : json :=
  JObj [("personal_info",
         JObj [("name", JStr "Ada");
               ("location", JObj [("city", JStr "Pune"); ("country", JStr "India")]);
               ("willing_to_relocate", JBool true)]);
        ("job_description",
         JObj [("role", JStr "Engineer");
               ("company_name", JStr "Acme");
               ("skills_required", JArr [JStr "python"; JStr "sql"]);
               ("location", JObj [("city", JStr "Pune"); ("country", JStr "India")])]);
        ("resume", JObj [("text", JStr "Five years of python.")]);
        ("cover_letter", JObj [("text", JStr "I would like to join Acme.")]);
        ("github", JObj [("username", JStr "ada"); ("repo_list", JArr [])])].

Definition score_entry (q : Q) : json := JObj [("score", JNum q)].

(** The state the referee finds: the initial state of [main.py], lines
    70-80, with the five results and the audit filled in. *)
Definition sample_state (criteria : json) (re cl jd gh lo adj : Q) : dict :=
  [("job_application", sample_application);
   ("hiring_criteria", criteria);
   ("resume_score", score_entry re);
   ("cover_letter_score", score_entry cl);
   ("jd_match_score", score_entry jd);
   ("github_score", score_entry gh);
   ("location_score", score_entry lo);
   ("fairness_audit", JObj [("bias_detected", JBool false); ("total_adjustment", JNum adj)]);
   ("final_verdict", JObj [])].

Definition criteria_of (weights : json) (strictness : string) : json :=
  JObj [("weights", weights); ("strictness", JStr strictness)].

(** Scenario of the specification, section 8: the default weights,
    scores 80, 70, 90, 60, 100, no adjustment, medium strictness. *)
Definition scenario_state : dict :=
  sample_state (criteria_of default_weights "medium") 80 70 90 60 100 0.

Definition resume_only : json := JObj [("resume", JNum 1)].


Definition some_key : environ := Some "gsk_key".

Definition num_field (k : string) (v : json) : option Q :=
  match field k v with
  | Some x => as_num x
  | None => None
  end.

Definition verdict_of (r : result dict) : json :=
  match r with
  | Ok upd => match lookup "final_verdict" upd with Some v => v | None => JNull end
  | Raise _ => JNull
  end.

(** ** The shape of a well-formed run state

    What section 3 of the specification and [state.py] say about the
    state: every slot is a dict; the job application has dicts for its
    parts, lists of strings for the skills and a list of repositories;
    the weights are numbers; the scores reported by the analysts and the
    total adjustment of the audit, where present, are numbers. *)

Definition opt_field (p : json -> bool) (k : string) (d : dict) : bool :=
  match lookup k d with
  | Some v => p v
  | None => true
  end.

Definition obj_with (checks : dict -> bool) (v : json) : bool :=
  match v with
  | JObj d => checks d
  | _ => false
  end.

Definition is_obj : json -> bool := obj_with (fun _ => true).

Definition is_num (v : json) : bool :=
  match as_num v with
  | Some _ => true
  | None => false
  end.

Definition is_string_list (v : json) : bool :=
  match v with
  | JArr l => match all_strings l with Some _ => true | None => false end
  | _ => false
  end.

Definition is_array (v : json) : bool :=
  match v with
  | JArr _ => true
  | _ => false
  end.

Definition well_formed_description (jd : dict) : bool :=
  opt_field is_string_list "skills_required" jd
  && opt_field is_string_list "skills_nice_to_have" jd
  && opt_field is_obj "location" jd.

Definition well_formed_personal_info (info : dict) : bool :=
  opt_field is_obj "location" info.

Definition well_formed_github (gh : dict) : bool :=
  opt_field is_array "repo_list" gh.

Definition well_formed_application (ja : dict) : bool :=
  opt_field is_obj "resume" ja
  && opt_field is_obj "cover_letter" ja
  && opt_field (obj_with well_formed_description) "job_description" ja
  && opt_field (obj_with well_formed_personal_info) "personal_info" ja
  && opt_field (obj_with well_formed_github) "github" ja.

Definition numeric_dict (d : dict) : bool := forallb (fun kv => is_num (snd kv)) d.

Definition well_formed_criteria (hc : dict) : bool :=
  opt_field (obj_with numeric_dict) "weights" hc.

Definition well_formed_score (r : dict) : bool := opt_field is_num "score" r.

Definition well_formed_audit (fa : dict) : bool := opt_field is_num "total_adjustment" fa.

Definition score_keys : list string :=
  ["resume_score"; "cover_letter_score"; "jd_match_score"; "github_score";
   "location_score"].

Definition well_formed_state (st : dict) : bool :=
  match lookup "job_application" st with
  | Some ja => obj_with well_formed_application ja
  | None => false
  end
  && forallb (fun kv => is_obj (snd kv)) st
  && opt_field (obj_with well_formed_criteria) "hiring_criteria" st
  && opt_field (obj_with well_formed_audit) "fairness_audit" st
  && forallb (fun k => opt_field (obj_with well_formed_score) k st) score_keys.

(** The numeric field a fallback result carries, and its value where the
    source fixes one. *)
Definition score_field (node : string) : string :=
  if String.eqb node "fairness_auditor" then "total_adjustment"
  else if String.eqb node "referee_agent" then "final_score"
  else "score".

Definition fallback_score (node : string) : option Q :=
  if String.eqb node "referee_agent" then None
  else if String.eqb node "location_coordinator" then Some 50%Q
  else Some 0%Q.

Definition result_key (node : string) : string :=
  match score_key_of node with
  | Some k => k
  | None => ""
  end.

(** What a node returns for an outcome: the decoded response under the
    node's state key, or a fallback dict with a numeric score and a
    non-empty explanation. *)
Definition falls_back (node : string) (out : llm_outcome) (upd : dict) : Prop :=
  match out with
  | Decoded v => upd = [(result_key node, v)]
  | _ =>
      exists fields q why,
        upd = [(result_key node, JObj fields)]
        /\ lookup (score_field node) fields = Some (JNum q)
        /\ match fallback_score node with Some z => q = z | None => True end
        /\ lookup "thought_process" fields = Some (JStr why)
        /\ why <> ""
  end.

(** A run of the graph as [astream_events] reports it: the analysts
    complete in an order of their own, an inner chain of a node ends with
    an output that is not the node's. *)
Definition completion_event (node : string) (upd : dict) : graph_event :=
  {| event_type := "on_chain_end"; langgraph_node := node; output := JObj upd |}.

Definition sample_events : list graph_event :=
  [ {| event_type := "on_chain_start"; langgraph_node := "";
       output := JObj [] |};
    {| event_type := "on_chain_start"; langgraph_node := "github_analyst";
       output := JObj [] |};
    {| event_type := "on_chain_end"; langgraph_node := "github_analyst";
       output := JObj [("content", JStr "{}")] |};
    completion_event "github_analyst"
      [("github_score", JObj [("score", JNum 60); ("thought_process", JStr "I looked at the repositories.")])];
    completion_event "resume_analyst" [("resume_score", score_entry 80)];
    completion_event "location_coordinator" [("location_score", score_entry 100)];
    completion_event "jd_match_analyst" [("jd_match_score", score_entry 90)];
    completion_event "cover_letter_analyst" [("cover_letter_score", score_entry 70)];
    completion_event "fairness_auditor"
      [("fairness_audit", JObj [("bias_detected", JBool false); ("total_adjustment", JNum 0)])];
    completion_event "referee_agent"
      [("final_verdict", JObj [("final_score", JNum (805#10)); ("verdict", JStr "SHORTLISTED")])];
    {| event_type := "on_chain_end"; langgraph_node := "";
       output := JObj [] |} ].

(** Responses the backend may give the referee: well-formed JSON whose
    score and label are the backend's own. *)
Definition response (final_score : Q) (verdict : string) : llm_outcome :=
  Decoded (JObj [("final_score", JNum final_score); ("verdict", JStr verdict)]).


(** ** Vocabulary for the statements about the stream *)

(** Events the loop passes by: another kind of event, a node that is
    none of the seven agents, or an output dict without the node's key
    (a chain that ends inside a node). *)
Definition passes_by (ev : graph_event) : bool :=
  negb (String.eqb (event_type ev) "on_chain_end")
  || negb (mem (langgraph_node ev) graph_nodes)
  || match output ev with
     | JObj d =>
         match lookup (result_key (langgraph_node ev)) d with
         | None => true
         | Some _ => false
         end
     | _ => false
     end.





(** ** Vocabulary for the statements about the preprocessor *)

(** The star count of an entry of the repository list, 0 when it is no
    number. *)
Definition stars_num (entry : json) : Q :=
  match field "stars" entry with
  | Some v => match as_num v with Some q => q | None => 0 end
  | None => 0
  end.

Definition counted (repo : json) : bool :=
  obj_with (fun d => match lookup "stargazers_count" d with
                     | Some v => is_num v
                     | None => true
                     end) repo.

Definition by_stars (x y : json) : Prop := (stars_num y <= stars_num x)%Q.

Definition starred (entry : json) : Prop :=
  exists v q, py_item entry "stars" = Ok v /\ as_num v = Some q /\ stars_num entry = q.

Definition api_url (username : string) : string :=
  "https://api.github.com/users/" ++ username ++ "/repos".

(** * Properties *)

(** ** The error monad *)

Lemma bind_Ok {A B} (c : result A) (k : A -> result B) (b : B) :
  bind c k = Ok b -> exists a, c = Ok a /\ k a = Ok b.
Proof.
  destruct c as [a|e]; simpl; intros H.
  - exists a. split; [reflexivity | exact H].
  - discriminate H.
Qed.

Ltac inv_bind H :=
  let a := fresh "x" in
  let Ha := fresh "E" in
  apply bind_Ok in H; destruct H as [a [Ha H]].

Ltac inv_binds H := repeat (inv_bind H).

(** ** The event stream *)









(** ** A successful run *)



Lemma mem_In x l : mem x l = true -> In x l.
Proof.
  unfold mem. rewrite existsb_exists. intros [y [Hy E]].
  apply String.eqb_eq in E. subst y. exact Hy.
Qed.











(** ** The referee: what [referee_prepare] leaves in the locals *)

Lemma referee_prepare_inv env st c :
  referee_prepare env st = Ok c ->
  initialize_llm env = Ok tt
  /\ collect_score st "resume_score" = Ok (resume_score c)
  /\ collect_score st "cover_letter_score" = Ok (cover_letter_score c)
  /\ collect_score st "jd_match_score" = Ok (jd_match_score c)
  /\ collect_score st "github_score" = Ok (github_score c)
  /\ collect_score st "location_score" = Ok (location_score c)
  /\ (exists w0, supplied_weights st = Ok w0 /\ normalize_weights w0 = Ok (weights c))
  /\ py_get (state_get st "hiring_criteria" (JObj [])) "strictness" (JStr "medium")
     = Ok (strictness c)
  /\ py_get (state_get st "fairness_audit" (JObj [])) "total_adjustment" (JNum 0)
     = Ok (total_fairness_adjustment c)
  /\ weighted_sum (weights c) (jd_match_score c) (github_score c) (resume_score c)
                  (cover_letter_score c) (location_score c)
     = Ok (weighted_before_fairness c).
Proof.
  unfold referee_prepare, supplied_weights. intros H.
  inv_bind H. destruct x.
  do 5 inv_bind H. cbv zeta in H. do 6 inv_bind H. inv_binds H.
  injection H as <-. simpl.
  repeat (split; [eassumption || eauto|]). assumption.
Qed.

Lemma py_mul_inv a b v :
  py_mul a b = Ok v -> exists x y, as_num a = Some x /\ as_num b = Some y /\ v = JNum (x * y).
Proof.
  unfold py_mul. destruct (as_num a) as [x|], (as_num b) as [y|]; try discriminate.
  intros H. injection H as <-. eauto.
Qed.

Lemma py_add_num x y : py_add (JNum x) (JNum y) = Ok (JNum (x + y)).
Proof. reflexivity. Qed.

Lemma weighted_sum_inv w jd gh re cl lo v :
  weighted_sum w jd gh re cl lo = Ok v ->
  exists qjd qgh qre qcl qlo wjd wgh wre wcl wlo,
    as_num jd = Some qjd /\ as_num gh = Some qgh /\ as_num re = Some qre
    /\ as_num cl = Some qcl /\ as_num lo = Some qlo
    /\ as_num (weight_of w "jd_match" (3#10)) = Some wjd
    /\ as_num (weight_of w "github" (2#10)) = Some wgh
    /\ as_num (weight_of w "resume" (2#10)) = Some wre
    /\ as_num (weight_of w "cover_letter" (15#100)) = Some wcl
    /\ as_num (weight_of w "location" (15#100)) = Some wlo
    /\ v = JNum (qjd * wjd + qgh * wgh + qre * wre + qcl * wcl + qlo * wlo).
Proof.
  unfold weighted_sum. intros H.
  do 5 (let E := fresh "M" in
        apply bind_Ok in H; destruct H as [? [E H]];
        apply py_mul_inv in E; destruct E as [? [? [? [? ->]]]]).
  rewrite !py_add_num in H. simpl in H. injection H as <-.
  do 10 eexists. repeat (split; [eassumption|]). reflexivity.
Qed.

Lemma weighted_scores_ok c :
  (exists v, weighted_sum (weights c) (jd_match_score c) (github_score c)
                          (resume_score c) (cover_letter_score c)
                          (location_score c) = Ok v) ->
  exists ws, weighted_scores c = Ok ws.
Proof.
  intros [v H]. apply weighted_sum_inv in H.
  destruct H as (qjd & qgh & qre & qcl & qlo & wjd & wgh & wre & wcl & wlo
                 & H1 & H2 & H3 & H4 & H5 & H6 & H7 & H8 & H9 & H10 & _).
  unfold weighted_scores, py_mul.
  rewrite H1, H2, H3, H4, H5, H6, H7, H8, H9, H10. simpl. eauto.
Qed.

(** Both handlers of [referee_agent] build the same verdict up to the
    texts. *)
Lemma referee_fallback env st c out a :
  referee_prepare env st = Ok c ->
  as_num (total_fairness_adjustment c) = Some a ->
  failed out = true ->
  exists q verdict,
    as_num (weighted_before_fairness c) = Some q
    /\ weighted_before_fairness c = JNum q
    /\ referee_agent env st out = Ok [("final_verdict", JObj verdict)]
    /\ lookup "final_score" verdict = Some (JNum (q + a))
    /\ lookup "verdict" verdict = Some (JStr "MAYBE")
    /\ lookup "fairness_adjustment_applied" verdict = Some (total_fairness_adjustment c)
    /\ exists concern, lookup "key_concerns" verdict = Some (JArr [JStr concern]).
Proof.
  intros Hp Ha Hf. unfold referee_agent. rewrite Hp. simpl.
  pose proof (referee_prepare_inv _ _ _ Hp) as Hi.
  destruct Hi as (_ & _ & _ & _ & _ & _ & _ & _ & _ & Hw).
  destruct (weighted_scores_ok c (ex_intro _ _ Hw)) as [ws Hws].
  apply weighted_sum_inv in Hw.
  destruct Hw as (qjd & qgh & qre & qcl & qlo & wjd & wgh & wre & wcl & wlo
                  & _ & _ & _ & _ & _ & _ & _ & _ & _ & _ & Hv).
  destruct out as [v| |msg]; [discriminate Hf| |];
    unfold referee_decide, py_add; rewrite Hv, Ha, Hws; simpl;
    do 2 eexists; repeat (split; [reflexivity|]); eexists; reflexivity.
Qed.


(** C2 (as the code has it). The referee computes no label: a response
    that decodes is the verdict, label included, and when the call or the
    decoding fails the label is MAYBE, whatever the final score and the
    strictness. *)
Theorem verdict_label_source
  (env : environ) (st : dict) (c : referee_locals) (out : llm_outcome) (a : Q) :
  referee_prepare env st = Ok c ->
  as_num (total_fairness_adjustment c) = Some a ->
  match out with
  | Decoded v => referee_agent env st out = Ok [("final_verdict", v)]
  | _ =>
      exists verdict,
        referee_agent env st out = Ok [("final_verdict", JObj verdict)]
        /\ lookup "verdict" verdict = Some (JStr "MAYBE")
  end.
Proof.
  intros Hp Ha.
  destruct out as [v| |msg].
  - unfold referee_agent. rewrite Hp. reflexivity.
  - destruct (referee_fallback env st c DecodeError a Hp Ha eq_refl)
      as (q & verdict & _ & _ & Hr & _ & Hv & _).
    exists verdict. auto.
  - destruct (referee_fallback env st c (InvokeError msg) a Hp Ha eq_refl)
      as (q & verdict & _ & _ & Hr & _ & Hv & _).
    exists verdict. auto.
Qed.



(** C8 (as the code has it). The strictness the referee passes on is the
    supplied value, recognised or not; it is "medium" only when the
    criteria have no strictness entry. *)
Theorem strictness_default_only_when_absent
  (env : environ) (st : dict) (c : referee_locals) :
  referee_prepare env st = Ok c ->
  match field "strictness" (state_get st "hiring_criteria" (JObj [])) with
  | Some supplied => strictness c = supplied
  | None => strictness c = JStr "medium"
  end.
Proof.
  intros Hp.
  destruct (referee_prepare_inv _ _ _ Hp) as (_ & _ & _ & _ & _ & _ & _ & Hs & _).
  unfold py_get, field in *.
  destruct (state_get st "hiring_criteria" (JObj [])); try discriminate.
  destruct (lookup "strictness" fields); injection Hs as <-; reflexivity.
Qed.

(** ** Weight normalisation *)

Lemma py_sum_from_numeric acc l t :
  py_sum_from acc l = Ok t -> Forall (fun v => exists q, as_num v = Some q) l.
Proof.
  revert acc. induction l as [|v l IH]; simpl; intros acc H; [constructor|].
  destruct (as_num v) as [q|] eqn:E; [|discriminate].
  constructor; eauto.
Qed.

Lemma lookup_In k (d : dict) v : lookup k d = Some v -> In v (map snd d).
Proof.
  induction d as [|[k' v'] d IH]; simpl; [discriminate|].
  destruct (String.eqb k k'); intros H; [injection H as <-|]; auto.
Qed.

Lemma divide_all_lookup total d w k :
  divide_all total d = Ok w ->
  match lookup k d with
  | None => lookup k w = None
  | Some v => exists q, as_num v = Some q /\ lookup k w = Some (JNum (q / total))
  end.
Proof.
  revert w. induction d as [|[k' v'] d IH]; simpl; intros w H.
  - injection H as <-. reflexivity.
  - destruct (as_num v') as [q|] eqn:E; [|discriminate].
    inv_bind H. injection H as <-. simpl.
    destruct (String.eqb k k'); [eauto|]. apply IH. assumption.
Qed.

Lemma normalize_weights_inv w0 w :
  normalize_weights w0 = Ok w ->
  exists d total,
    w0 = JObj d /\ py_sum (map snd d) = Ok total
    /\ (if Qpositive total then divide_all total d = Ok w else w = d).
Proof.
  unfold normalize_weights. intros H.
  destruct w0; try discriminate. simpl in H. inv_bind H.
  exists fields, x. split; [reflexivity|]. split; [assumption|].
  destruct (Qpositive x); [assumption|]. injection H as <-. reflexivity.
Qed.

Lemma weight_of_effective d total w k dflt :
  py_sum (map snd d) = Ok total ->
  (if Qpositive total then divide_all total d = Ok w else w = d) ->
  exists q, effective_weight d total k dflt = Some q
            /\ as_num (weight_of w k dflt) = Some q.
Proof.
  intros Hs Hw. unfold effective_weight, weight_of.
  destruct (Qpositive total).
  - pose proof (divide_all_lookup total d w k Hw) as Hl.
    destruct (lookup k d) as [v|].
    + destruct Hl as [q [-> ->]]. eauto.
    + rewrite Hl. eauto.
  - subst w. destruct (lookup k d) as [v|] eqn:E; [|eauto].
    apply lookup_In in E.
    pose proof (py_sum_from_numeric _ _ _ Hs) as Hn.
    rewrite Forall_forall in Hn. destruct (Hn v E) as [q ->]. eauto.
Qed.

Lemma weight_of_omitted d total w k dflt :
  (if Qpositive total then divide_all total d = Ok w else w = d) ->
  lookup k d = None -> weight_of w k dflt = JNum dflt.
Proof.
  intros Hw Hk. unfold weight_of.
  destruct (Qpositive total).
  - pose proof (divide_all_lookup total d w k Hw) as Hl.
    rewrite Hk in Hl. rewrite Hl. reflexivity.
  - subst w. rewrite Hk. reflexivity.
Qed.

(** The weighted score of lines 127-133 in terms of the supplied weights. *)
Lemma referee_weighted_formula env st c :
  referee_prepare env st = Ok c ->
  exists w0 total qjd qgh qre qcl qlo wjd wgh wre wcl wlo,
    supplied_weights st = Ok (JObj w0)
    /\ py_sum (map snd w0) = Ok total
    /\ (if Qpositive total then divide_all total w0 = Ok (weights c) else weights c = w0)
    /\ as_num (jd_match_score c) = Some qjd
    /\ as_num (github_score c) = Some qgh
    /\ as_num (resume_score c) = Some qre
    /\ as_num (cover_letter_score c) = Some qcl
    /\ as_num (location_score c) = Some qlo
    /\ effective_weight w0 total "jd_match" (3#10) = Some wjd
    /\ effective_weight w0 total "github" (2#10) = Some wgh
    /\ effective_weight w0 total "resume" (2#10) = Some wre
    /\ effective_weight w0 total "cover_letter" (15#100) = Some wcl
    /\ effective_weight w0 total "location" (15#100) = Some wlo
    /\ weighted_before_fairness c
       = JNum (qjd * wjd + qgh * wgh + qre * wre + qcl * wcl + qlo * wlo).
Proof.
  intros Hp.
  destruct (referee_prepare_inv _ _ _ Hp)
    as (_ & _ & _ & _ & _ & _ & (w0 & Hw0 & Hn) & _ & _ & Hw).
  apply normalize_weights_inv in Hn. destruct Hn as (d & total & -> & Hs & Hd).
  apply weighted_sum_inv in Hw.
  destruct Hw as (qjd & qgh & qre & qcl & qlo & wjd & wgh & wre & wcl & wlo
                  & H1 & H2 & H3 & H4 & H5 & H6 & H7 & H8 & H9 & H10 & Hv).
  exists d, total, qjd, qgh, qre, qcl, qlo, wjd, wgh, wre, wcl, wlo.
  repeat (split; [assumption|]).
  repeat match goal with
         | H : as_num (weight_of (weights c) ?k ?dflt) = Some ?x
           |- effective_weight _ _ ?k ?dflt = Some ?x /\ _ =>
             split;
             [destruct (weight_of_effective d total (weights c) k dflt Hs Hd)
                as [q [Hq1 Hq2]]; rewrite Hq2 in H; injection H as <-; exact Hq1|]
         end.
  exact Hv.
Qed.

(** C1 (as the code has it). A response that decodes is the verdict, with
    whatever final score it carries.  When the call or the decoding fails,
    the final score is the sum over the five sources of score times
    effective weight, plus the audit's total adjustment. *)
Theorem final_score_formula
  (env : environ) (st : dict) (c : referee_locals) (out : llm_outcome) (a : Q) :
  referee_prepare env st = Ok c ->
  as_num (total_fairness_adjustment c) = Some a ->
  exists w0 total qjd qgh qre qcl qlo wjd wgh wre wcl wlo,
    supplied_weights st = Ok (JObj w0)
    /\ py_sum (map snd w0) = Ok total
    /\ as_num (jd_match_score c) = Some qjd
    /\ as_num (github_score c) = Some qgh
    /\ as_num (resume_score c) = Some qre
    /\ as_num (cover_letter_score c) = Some qcl
    /\ as_num (location_score c) = Some qlo
    /\ effective_weight w0 total "jd_match" (3#10) = Some wjd
    /\ effective_weight w0 total "github" (2#10) = Some wgh
    /\ effective_weight w0 total "resume" (2#10) = Some wre
    /\ effective_weight w0 total "cover_letter" (15#100) = Some wcl
    /\ effective_weight w0 total "location" (15#100) = Some wlo
    /\ match out with
       | Decoded v => referee_agent env st out = Ok [("final_verdict", v)]
       | _ =>
           exists verdict,
             referee_agent env st out = Ok [("final_verdict", JObj verdict)]
             /\ lookup "final_score" verdict
                = Some (JNum (qjd * wjd + qgh * wgh + qre * wre + qcl * wcl
                              + qlo * wlo + a))
       end.
Proof.
  intros Hp Ha.
  destruct (referee_weighted_formula env st c Hp)
    as (w0 & total & qjd & qgh & qre & qcl & qlo & wjd & wgh & wre & wcl & wlo
        & H1 & H2 & _ & H4 & H5 & H6 & H7 & H8 & H9 & H10 & H11 & H12 & H13 & Hv).
  exists w0, total, qjd, qgh, qre, qcl, qlo, wjd, wgh, wre, wcl, wlo.
  repeat (split; [assumption|]).
  destruct out as [v| |msg].
  - unfold referee_agent. rewrite Hp. reflexivity.
  - destruct (referee_fallback env st c DecodeError a Hp Ha eq_refl)
      as (q & verdict & _ & Hq & Hr & Hs & _).
    rewrite Hv in Hq. injection Hq as <-. exists verdict. auto.
  - destruct (referee_fallback env st c (InvokeError msg) a Hp Ha eq_refl)
      as (q & verdict & _ & Hq & Hr & Hs & _).
    rewrite Hv in Hq. injection Hq as <-. exists verdict. auto.
Qed.

(** ** Weights that sum to zero *)





(** C10. A source the weights mapping omits gets the default written in
    the weighted sum (jd_match 0.3, github 0.2, resume 0.2, cover_letter
    0.15, location 0.15), untouched by the normalisation of the supplied
    entries; so the weights used need not sum to 1 and the omitted source
    still contributes: with weights [{resume: 1}] they sum to 1.8, and a
    github score of 100 alone gives a weighted score of 20. *)
Theorem omitted_weights_take_defaults :
  (forall env st c,
      referee_prepare env st = Ok c ->
      exists w0 total qjd qgh qre qcl qlo wjd wgh wre wcl wlo,
        supplied_weights st = Ok (JObj w0)
        /\ py_sum (map snd w0) = Ok total
        /\ (forall k dflt, lookup k w0 = None ->
                           weight_of (weights c) k dflt = JNum dflt
                           /\ effective_weight w0 total k dflt = Some dflt)
        /\ (forall k v, lookup k w0 = Some v -> Qpositive total = true ->
                        exists q, as_num v = Some q
                                  /\ lookup k (weights c) = Some (JNum (q / total)))
        /\ as_num (jd_match_score c) = Some qjd
        /\ as_num (github_score c) = Some qgh
        /\ as_num (resume_score c) = Some qre
        /\ as_num (cover_letter_score c) = Some qcl
        /\ as_num (location_score c) = Some qlo
        /\ effective_weight w0 total "jd_match" (3#10) = Some wjd
        /\ effective_weight w0 total "github" (2#10) = Some wgh
        /\ effective_weight w0 total "resume" (2#10) = Some wre
        /\ effective_weight w0 total "cover_letter" (15#100) = Some wcl
        /\ effective_weight w0 total "location" (15#100) = Some wlo
        /\ weighted_before_fairness c
           = JNum (qjd * wjd + qgh * wgh + qre * wre + qcl * wcl + qlo * wlo))
  /\ (exists c wjd wgh wre wcl wlo q,
        referee_prepare some_key
          (sample_state (criteria_of resume_only "medium") 0 0 0 100 0 0) = Ok c
        /\ as_num (weight_of (weights c) "jd_match" (3#10)) = Some wjd
        /\ as_num (weight_of (weights c) "github" (2#10)) = Some wgh
        /\ as_num (weight_of (weights c) "resume" (2#10)) = Some wre
        /\ as_num (weight_of (weights c) "cover_letter" (15#100)) = Some wcl
        /\ as_num (weight_of (weights c) "location" (15#100)) = Some wlo
        /\ (wjd + wgh + wre + wcl + wlo == 18#10)%Q
        /\ weighted_before_fairness c = JNum q
        /\ (q == 20)%Q).
Proof.
  split.
  - intros env st c Hp.
    destruct (referee_weighted_formula env st c Hp)
      as (w0 & total & qjd & qgh & qre & qcl & qlo & wjd & wgh & wre & wcl & wlo
          & H1 & H2 & H3 & H4 & H5 & H6 & H7 & H8 & H9 & H10 & H11 & H12 & H13 & Hv).
    exists w0, total, qjd, qgh, qre, qcl, qlo, wjd, wgh, wre, wcl, wlo.
    split; [assumption|]. split; [assumption|].
    split.
    { intros k dflt Hk. split.
      - apply (weight_of_omitted w0 total); assumption.
      - unfold effective_weight. rewrite Hk. reflexivity. }
    split.
    { intros k v Hk Hpos. rewrite Hpos in H3.
      pose proof (divide_all_lookup total w0 (weights c) k H3) as Hl.
      rewrite Hk in Hl. exact Hl. }
    repeat (split; [assumption|]). exact Hv.
  - eexists. do 6 eexists.
    split; [lazy; reflexivity|].
    do 5 (split; [lazy; reflexivity|]).
    split; [lazy; reflexivity|].
    split; [lazy; reflexivity|].
    lazy. reflexivity.
Qed.

(** ** The agents on a well-formed state *)

Lemma get_obj_with checks k d :
  opt_field (obj_with checks) k d = true -> checks [] = true ->
  exists d', py_get (JObj d) k (JObj []) = Ok (JObj d') /\ checks d' = true.
Proof.
  unfold opt_field, py_get. intros H H0.
  destruct (lookup k d) as [v|].
  - destruct v; try discriminate. eauto.
  - eauto.
Qed.

Lemma get_obj k d :
  opt_field is_obj k d = true -> exists d', py_get (JObj d) k (JObj []) = Ok (JObj d').
Proof.
  intros H. destruct (get_obj_with (fun _ => true) k d H eq_refl) as [d' [E _]]. eauto.
Qed.

Lemma get_any d k dflt : exists v, py_get (JObj d) k dflt = Ok v.
Proof. simpl. eauto. Qed.

Lemma initialize_llm_ok key : key <> "" -> initialize_llm (Some key) = Ok tt.
Proof.
  intros H. unfold initialize_llm.
  destruct (String.eqb_spec key ""); [contradiction | reflexivity].
Qed.

Lemma well_formed_state_inv st :
  well_formed_state st = true ->
  (exists ja, lookup "job_application" st = Some (JObj ja)
              /\ well_formed_application ja = true)
  /\ forallb (fun kv => is_obj (snd kv)) st = true
  /\ opt_field (obj_with well_formed_criteria) "hiring_criteria" st = true
  /\ opt_field (obj_with well_formed_audit) "fairness_audit" st = true
  /\ forallb (fun k => opt_field (obj_with well_formed_score) k st) score_keys = true.
Proof.
  unfold well_formed_state. intros H.
  repeat (apply andb_prop in H; let K := fresh "K" in destruct H as [H K]).
  destruct (lookup "job_application" st) as [ja|]; [|discriminate].
  destruct ja; try discriminate. simpl in H. eauto 10.
Qed.

Lemma well_formed_application_inv ja :
  well_formed_application ja = true ->
  opt_field is_obj "resume" ja = true
  /\ opt_field is_obj "cover_letter" ja = true
  /\ opt_field (obj_with well_formed_description) "job_description" ja = true
  /\ opt_field (obj_with well_formed_personal_info) "personal_info" ja = true
  /\ opt_field (obj_with well_formed_github) "github" ja = true.
Proof.
  unfold well_formed_application. intros H.
  repeat (apply andb_prop in H; let K := fresh "K" in destruct H as [H K]).
  auto.
Qed.

Ltac use_obj H :=
  let d := fresh "d" in
  let E := fresh "E" in
  let W := fresh "W" in
  first
    [ destruct (get_obj_with _ _ _ H eq_refl) as [d [E W]]
    | destruct (get_obj _ _ H) as [d E] ];
  rewrite ?E.

Ltac fallback_cases out :=
  destruct out; eexists; (split; [reflexivity|]); unfold falls_back; simpl;
  [ reflexivity
  | do 3 eexists; repeat (split; [reflexivity|]); discriminate
  | do 3 eexists; repeat (split; [reflexivity|]); discriminate ].

Lemma resume_analyst_total key st out :
  key <> "" -> well_formed_state st = true ->
  exists upd, resume_analyst (Some key) st out = Ok upd
              /\ falls_back "resume_analyst" out upd.
Proof.
  intros Hk Hw. apply well_formed_state_inv in Hw.
  destruct Hw as ((ja & Hja & Hwa) & _).
  apply well_formed_application_inv in Hwa.
  destruct Hwa as (H1 & H2 & H3 & H4 & H5).
  unfold resume_analyst, subscript.
  rewrite (initialize_llm_ok key Hk), Hja. cbn [bind].
  use_obj H1. use_obj H3. cbn [py_get bind].
  fallback_cases out.
Qed.

Lemma cover_letter_analyst_total key st out :
  key <> "" -> well_formed_state st = true ->
  exists upd, cover_letter_analyst (Some key) st out = Ok upd
              /\ falls_back "cover_letter_analyst" out upd.
Proof.
  intros Hk Hw. apply well_formed_state_inv in Hw.
  destruct Hw as ((ja & Hja & Hwa) & _).
  apply well_formed_application_inv in Hwa.
  destruct Hwa as (H1 & H2 & H3 & H4 & H5).
  unfold cover_letter_analyst, subscript.
  rewrite (initialize_llm_ok key Hk), Hja. cbn [bind].
  use_obj H2. use_obj H3. cbn [py_get bind].
  fallback_cases out.
Qed.

Lemma join_string_list sep v :
  is_string_list v = true -> exists s, py_join sep v = Ok s.
Proof.
  destruct v; try discriminate. simpl.
  destruct (all_strings items); [eauto | discriminate].
Qed.

Lemma get_string_list k d sep :
  opt_field is_string_list k d = true ->
  exists s,
    (let v := match lookup k d with Some v => v | None => JArr [] end in
     if py_truthy v then py_join sep v else Ok "None specified") = Ok s.
Proof.
  unfold opt_field. intros H. cbv zeta.
  destruct (lookup k d) as [v|].
  - destruct (py_truthy v); [|eauto].
    destruct (join_string_list sep v H) as [s E]. eauto.
  - simpl. eauto.
Qed.

Lemma jd_match_analyst_total key st out :
  key <> "" -> well_formed_state st = true ->
  exists upd, jd_match_analyst (Some key) st out = Ok upd
              /\ falls_back "jd_match_analyst" out upd.
Proof.
  intros Hk Hw. apply well_formed_state_inv in Hw.
  destruct Hw as ((ja & Hja & Hwa) & _).
  apply well_formed_application_inv in Hwa.
  destruct Hwa as (H1 & H2 & H3 & H4 & H5).
  unfold jd_match_analyst, subscript.
  rewrite (initialize_llm_ok key Hk), Hja. cbn [bind].
  use_obj H1.
  destruct (get_obj_with _ _ _ H3 eq_refl) as [jd [Ejd Wjd]]. rewrite Ejd.
  unfold well_formed_description in Wjd.
  repeat (apply andb_prop in Wjd; let K := fresh "K" in destruct Wjd as [Wjd K]).
  destruct (get_string_list _ _ ", " Wjd) as (s1 & J1).
  destruct (get_string_list _ _ ", " K0) as (s2 & J2).
  cbv zeta in J1, J2.
  cbn [py_get bind]. rewrite J1, J2. cbn [bind].
  fallback_cases out.
Qed.

Lemma github_analyst_total key st out :
  key <> "" -> well_formed_state st = true ->
  exists upd, github_analyst (Some key) st out = Ok upd
              /\ falls_back "github_analyst" out upd.
Proof.
  intros Hk Hw. apply well_formed_state_inv in Hw.
  destruct Hw as ((ja & Hja & Hwa) & _).
  apply well_formed_application_inv in Hwa.
  destruct Hwa as (H1 & H2 & H3 & H4 & H5).
  unfold github_analyst, subscript.
  rewrite (initialize_llm_ok key Hk), Hja. cbn [bind].
  destruct (get_obj_with _ _ _ H5 eq_refl) as [gh [E W]]. rewrite E.
  cbn [py_get bind].
  assert (Hlen : exists n, py_len (match lookup "repo_list" gh with
                                   | Some v => v
                                   | None => JArr []
                                   end) = Ok n).
  { unfold well_formed_github, opt_field in W.
    destruct (lookup "repo_list" gh) as [v|]; [|simpl; eauto].
    destruct v; try discriminate. simpl. eauto. }
  destruct Hlen as [n Hn]. rewrite Hn.
  fallback_cases out.
Qed.

Lemma location_coordinator_total key st out :
  key <> "" -> well_formed_state st = true ->
  exists upd, location_coordinator (Some key) st out = Ok upd
              /\ falls_back "location_coordinator" out upd.
Proof.
  intros Hk Hw. apply well_formed_state_inv in Hw.
  destruct Hw as ((ja & Hja & Hwa) & _).
  apply well_formed_application_inv in Hwa.
  destruct Hwa as (H1 & H2 & H3 & H4 & H5).
  unfold location_coordinator, subscript.
  rewrite (initialize_llm_ok key Hk), Hja. cbn [bind].
  destruct (get_obj_with _ _ _ H4 eq_refl) as [info [E1 W1]]. rewrite !E1.
  destruct (get_obj_with _ _ _ H3 eq_refl) as [jd [E2 W2]]. rewrite !E2.
  cbn [bind].
  unfold well_formed_personal_info in W1. use_obj W1.
  unfold well_formed_description in W2.
  repeat (apply andb_prop in W2; let K := fresh "K" in destruct W2 as [W2 K]).
  use_obj K. cbn [py_get bind].
  fallback_cases out.
Qed.

Lemma slot_with checks k st :
  opt_field (obj_with checks) k st = true -> checks [] = true ->
  exists d, state_get st k (JObj []) = JObj d /\ checks d = true.
Proof.
  unfold opt_field, state_get. intros H H0.
  destruct (lookup k st) as [v|]; [|eauto].
  destruct v; try discriminate. eauto.
Qed.

Lemma slot_obj st k :
  forallb (fun kv => is_obj (snd kv)) st = true ->
  exists d, state_get st k (JObj []) = JObj d.
Proof.
  unfold state_get. induction st as [|[k' v] st IH]; simpl; [eauto|].
  intros H. apply andb_prop in H. destruct H as [Hv Hst].
  destruct (String.eqb k k'); [|auto].
  destruct v; try discriminate. eauto.
Qed.

Lemma collect_score_ok st key :
  forallb (fun kv => is_obj (snd kv)) st = true ->
  exists v, collect_score st key = Ok v.
Proof.
  intros H. unfold collect_score.
  destruct (slot_obj st key H) as [d ->]. apply get_any.
Qed.

Lemma collect_score_num st key :
  opt_field (obj_with well_formed_score) key st = true ->
  exists v q, collect_score st key = Ok v /\ as_num v = Some q.
Proof.
  intros H. unfold collect_score.
  destruct (slot_with _ _ _ H eq_refl) as [d [-> W]].
  unfold well_formed_score, opt_field, is_num in W. simpl.
  destruct (lookup "score" d) as [v|].
  - destruct (as_num v) as [q|] eqn:E; [eauto | discriminate].
  - exists (JNum 0), 0%Q. auto.
Qed.

Lemma fairness_auditor_total key st out :
  key <> "" -> well_formed_state st = true ->
  exists upd, fairness_auditor (Some key) st out = Ok upd
              /\ falls_back "fairness_auditor" out upd.
Proof.
  intros Hk Hw. apply well_formed_state_inv in Hw.
  destruct Hw as ((ja & Hja & Hwa) & Hall & _).
  apply well_formed_application_inv in Hwa.
  destruct Hwa as (H1 & H2 & H3 & H4 & H5).
  unfold fairness_auditor, subscript.
  rewrite (initialize_llm_ok key Hk), Hja. cbn [bind].
  destruct (get_obj_with _ _ _ H4 eq_refl) as [info [E1 W1]]. rewrite E1.
  cbn [py_get bind]. cbv zeta.
  destruct (slot_obj st "resume_score" Hall) as [d1 ->].
  destruct (slot_obj st "cover_letter_score" Hall) as [d2 ->].
  destruct (slot_obj st "jd_match_score" Hall) as [d3 ->].
  destruct (slot_obj st "github_score" Hall) as [d4 ->].
  destruct (slot_obj st "location_score" Hall) as [d5 ->].
  cbn [py_get bind].
  fallback_cases out.
Qed.

Lemma numeric_sum d acc :
  numeric_dict d = true -> exists t, py_sum_from acc (map snd d) = Ok t.
Proof.
  revert acc. induction d as [|[k v] d IH]; simpl; intros acc H; [eauto|].
  apply andb_prop in H. destruct H as [Hv Hd].
  unfold is_num in Hv. simpl in Hv.
  destruct (as_num v); [auto | discriminate].
Qed.

Lemma numeric_divide total d :
  numeric_dict d = true ->
  exists w, divide_all total d = Ok w /\ numeric_dict w = true.
Proof.
  induction d as [|[k v] d IH]; simpl; intros H; [eauto|].
  apply andb_prop in H. destruct H as [Hv Hd].
  unfold is_num in Hv. simpl in Hv.
  destruct (as_num v); [|discriminate].
  destruct (IH Hd) as [w [-> Hw]]. simpl. eexists. split; [reflexivity|].
  simpl. exact Hw.
Qed.

Lemma numeric_normalize d :
  numeric_dict d = true ->
  exists w, normalize_weights (JObj d) = Ok w /\ numeric_dict w = true.
Proof.
  intros H. unfold normalize_weights, py_values, py_sum. cbn [bind].
  destruct (numeric_sum d 0 H) as [t ->]. cbn [bind].
  destruct (Qpositive t); [apply numeric_divide; assumption | eauto].
Qed.

Lemma numeric_weight_of w k dflt :
  numeric_dict w = true -> exists q, as_num (weight_of w k dflt) = Some q.
Proof.
  unfold weight_of. induction w as [|[k' v] w IH]; simpl; intros H; [eauto|].
  apply andb_prop in H. destruct H as [Hv Hw].
  destruct (String.eqb k k'); [|auto].
  unfold is_num in Hv. simpl in Hv.
  destruct (as_num v); [eauto | discriminate].
Qed.

Lemma format_weights_ok st w :
  forallb (fun kv => is_obj (snd kv)) st = true ->
  numeric_dict w = true -> format_weights st w = Ok tt.
Proof.
  intros Hst. induction w as [|[k v] w IH]; simpl; intros H; [reflexivity|].
  apply andb_prop in H. destruct H as [Hv Hw].
  unfold is_num in Hv. simpl in Hv.
  destruct (as_num v); [|discriminate].
  destruct (collect_score_ok st (k ++ "_score") Hst) as [x ->]. simpl. auto.
Qed.

Lemma weighted_sum_ok w jd gh re cl lo qjd qgh qre qcl qlo :
  numeric_dict w = true ->
  as_num jd = Some qjd -> as_num gh = Some qgh -> as_num re = Some qre ->
  as_num cl = Some qcl -> as_num lo = Some qlo ->
  exists v, weighted_sum w jd gh re cl lo = Ok v.
Proof.
  intros Hw H1 H2 H3 H4 H5. unfold weighted_sum, py_mul.
  rewrite H1, H2, H3, H4, H5.
  destruct (numeric_weight_of w "jd_match" (3#10) Hw) as [w1 ->].
  destruct (numeric_weight_of w "github" (2#10) Hw) as [w2 ->].
  destruct (numeric_weight_of w "resume" (2#10) Hw) as [w3 ->].
  destruct (numeric_weight_of w "cover_letter" (15#100) Hw) as [w4 ->].
  destruct (numeric_weight_of w "location" (15#100) Hw) as [w5 ->].
  cbn [bind py_add as_num]. eexists. reflexivity.
Qed.

Lemma referee_prepare_total key st :
  key <> "" -> well_formed_state st = true ->
  exists c a, referee_prepare (Some key) st = Ok c
              /\ as_num (total_fairness_adjustment c) = Some a.
Proof.
  intros Hk Hw. apply well_formed_state_inv in Hw.
  destruct Hw as ((ja & Hja & Hwa) & Hall & Hhc & Hfa & Hsc).
  apply well_formed_application_inv in Hwa.
  destruct Hwa as (H1 & H2 & H3 & H4 & H5).
  unfold score_keys in Hsc. simpl in Hsc.
  repeat (apply andb_prop in Hsc; let K := fresh "S" in destruct Hsc as [K Hsc]).
  destruct (collect_score_num _ _ S) as (v1 & q1 & C1 & N1).
  destruct (collect_score_num _ _ S0) as (v2 & q2 & C2 & N2).
  destruct (collect_score_num _ _ S1) as (v3 & q3 & C3 & N3).
  destruct (collect_score_num _ _ S2) as (v4 & q4 & C4 & N4).
  destruct (collect_score_num _ _ S3) as (v5 & q5 & C5 & N5).
  destruct (slot_with _ _ _ Hhc eq_refl) as [hc [Ehc Whc]].
  destruct (slot_with _ _ _ Hfa eq_refl) as [fa [Efa Wfa]].
  assert (Hw0 : exists w0, py_get (JObj hc) "weights" default_weights = Ok (JObj w0)
                           /\ numeric_dict w0 = true).
  { unfold well_formed_criteria, opt_field in Whc. simpl.
    destruct (lookup "weights" hc) as [v|].
    - destruct v; try discriminate. eauto.
    - unfold default_weights. eauto. }
  destruct Hw0 as (w0 & Ew0 & Nw0).
  destruct (numeric_normalize w0 Nw0) as (w & Ew & Nw).
  assert (Hadj : exists v a, py_get (JObj fa) "total_adjustment" (JNum 0) = Ok v
                             /\ as_num v = Some a).
  { unfold well_formed_audit, opt_field, is_num in Wfa. simpl.
    destruct (lookup "total_adjustment" fa) as [v|].
    - destruct (as_num v) as [a|] eqn:E; [eauto | discriminate].
    - exists (JNum 0), 0%Q. auto. }
  destruct Hadj as (adj & a & Eadj & Nadj).
  destruct (get_obj_with _ _ _ H4 eq_refl) as [info [Einfo _]].
  destruct (get_obj_with _ _ _ H3 eq_refl) as [jd [Ejd _]].
  destruct (weighted_sum_ok w v3 v4 v1 v2 v5 q3 q4 q1 q2 q5 Nw N3 N4 N1 N2 N5)
    as [wbf Ewbf].
  unfold referee_prepare, subscript.
  rewrite (initialize_llm_ok key Hk), C1, C2, C3, C4, C5. cbn [bind]. cbv zeta.
  rewrite Ehc, Ew0. cbn [bind].
  destruct (get_any hc "strictness" (JStr "medium")) as [s ->]. cbn [bind].
  rewrite Ew. cbn [bind].
  rewrite Efa.
  destruct (get_any fa "score_adjustments" (JObj [])) as [x1 ->]. cbn [bind].
  rewrite Eadj. cbn [bind].
  destruct (get_any fa "bias_detected" (JBool false)) as [x2 ->]. cbn [bind].
  rewrite Hja. cbn [bind]. rewrite Einfo. cbn [bind].
  destruct (get_any info "name" (JStr "Unknown")) as [x3 ->]. cbn [bind].
  rewrite Ejd. cbn [bind].
  destruct (get_any jd "role" (JStr "Unknown")) as [x4 ->]. cbn [bind].
  destruct (get_any jd "company_name" (JStr "Unknown")) as [x5 ->]. cbn [bind].
  rewrite (format_weights_ok st w Hall Nw). cbn [bind].
  rewrite Ewbf. cbn [bind].
  eexists. exists a. split; [reflexivity|]. exact Nadj.
Qed.

Lemma referee_agent_total key st out :
  key <> "" -> well_formed_state st = true ->
  exists upd, referee_agent (Some key) st out = Ok upd
              /\ falls_back "referee_agent" out upd.
Proof.
  intros Hk Hw.
  destruct (referee_prepare_total key st Hk Hw) as (c & a & Hp & Ha).
  destruct out as [v| |msg].
  - exists [("final_verdict", v)]. unfold referee_agent. rewrite Hp.
    split; reflexivity.
  - unfold referee_agent. rewrite Hp. cbn [bind].
    pose proof (referee_prepare_inv _ _ _ Hp) as Hi.
    destruct Hi as (_ & _ & _ & _ & _ & _ & _ & _ & _ & Hws).
    destruct (weighted_scores_ok c (ex_intro _ _ Hws)) as [ws Hws'].
    apply weighted_sum_inv in Hws.
    destruct Hws as (qjd & qgh & qre & qcl & qlo & wjd & wgh & wre & wcl & wlo
                     & _ & _ & _ & _ & _ & _ & _ & _ & _ & _ & Hv).
    unfold referee_decide, py_add. rewrite Hv, Ha, Hws'. cbn [as_num bind].
    eexists. split; [reflexivity|]. unfold falls_back.
    do 3 eexists. split; [reflexivity|]. simpl.
    split; [reflexivity|]. split; [exact I|]. split; [reflexivity|]. discriminate.
  - unfold referee_agent. rewrite Hp. cbn [bind].
    pose proof (referee_prepare_inv _ _ _ Hp) as Hi.
    destruct Hi as (_ & _ & _ & _ & _ & _ & _ & _ & _ & Hws).
    destruct (weighted_scores_ok c (ex_intro _ _ Hws)) as [ws Hws'].
    apply weighted_sum_inv in Hws.
    destruct Hws as (qjd & qgh & qre & qcl & qlo & wjd & wgh & wre & wcl & wlo
                     & _ & _ & _ & _ & _ & _ & _ & _ & _ & _ & Hv).
    unfold referee_decide, py_add. rewrite Hv, Ha, Hws'. cbn [as_num bind].
    eexists. split; [reflexivity|]. unfold falls_back.
    do 3 eexists. split; [reflexivity|]. simpl.
    split; [reflexivity|]. split; [exact I|]. split; [reflexivity|]. discriminate.
Qed.


(** * Concrete runs *)



(** The same scenario, with the ten factors of the weighted sum. *)
Lemma final_score_formula_witness :
  exists c,
    referee_prepare some_key scenario_state = Ok c
    /\ as_num (total_fairness_adjustment c) = Some 0%Q
    /\ exists w0 total qjd qgh qre qcl qlo wjd wgh wre wcl wlo,
         supplied_weights scenario_state = Ok (JObj w0)
         /\ py_sum (map snd w0) = Ok total
         /\ as_num (jd_match_score c) = Some qjd
         /\ as_num (github_score c) = Some qgh
         /\ as_num (resume_score c) = Some qre
         /\ as_num (cover_letter_score c) = Some qcl
         /\ as_num (location_score c) = Some qlo
         /\ effective_weight w0 total "jd_match" (3#10) = Some wjd
         /\ effective_weight w0 total "github" (2#10) = Some wgh
         /\ effective_weight w0 total "resume" (2#10) = Some wre
         /\ effective_weight w0 total "cover_letter" (15#100) = Some wcl
         /\ effective_weight w0 total "location" (15#100) = Some wlo
         /\ exists verdict,
              referee_agent some_key scenario_state DecodeError
              = Ok [("final_verdict", JObj verdict)]
              /\ lookup "final_score" verdict
                 = Some (JNum (qjd * wjd + qgh * wgh + qre * wre + qcl * wcl
                               + qlo * wlo + 0)).
Proof.
  eexists. split; [vm_compute; reflexivity|]. split; [reflexivity|].
  match goal with
  | |- context [jd_match_score ?c] =>
      apply (final_score_formula some_key scenario_state c DecodeError 0)
  end; reflexivity.
Defined.

(** The same scenario when the call itself fails. *)
Lemma verdict_label_source_witness :
  exists c,
    referee_prepare some_key scenario_state = Ok c
    /\ as_num (total_fairness_adjustment c) = Some 0%Q
    /\ exists verdict,
         referee_agent some_key scenario_state (InvokeError "timed out")
         = Ok [("final_verdict", JObj verdict)]
         /\ lookup "verdict" verdict = Some (JStr "MAYBE").
Proof.
  eexists. split; [vm_compute; reflexivity|].
  match goal with
  | |- as_num (total_fairness_adjustment ?c) = _ /\ _ =>
      split; [reflexivity|];
      apply (verdict_label_source some_key scenario_state c
               (InvokeError "timed out") 0); reflexivity
  end.
Defined.


(** Criteria without a strictness entry. *)
Lemma strictness_default_only_when_absent_witness :
  exists c,
    referee_prepare some_key
      (sample_state (JObj [("weights", default_weights)]) 80 70 90 60 100 0) = Ok c
    /\ strictness c = JStr "medium".
Proof.
  eexists. split; [vm_compute; reflexivity|].
  apply (strictness_default_only_when_absent some_key
           (sample_state (JObj [("weights", default_weights)]) 80 70 90 60 100 0) _).
  reflexivity.
Defined.



(** * Where the code departs from the specification *)

(** C1 fails on a response that decodes: the verdict carries the final
    score of the response (here 0), not the weighted score plus the
    adjustment (here 80.5). *)
Lemma final_score_taken_from_response :
  exists c q v,
    referee_prepare some_key scenario_state = Ok c
    /\ weighted_before_fairness c = JNum q
    /\ total_fairness_adjustment c = JNum 0
    /\ (q + 0 == 805#10)%Q
    /\ referee_agent some_key scenario_state (response 0 "REJECTED")
       = Ok [("final_verdict", v)]
    /\ num_field "final_score" v = Some 0%Q
    /\ ~ (0 == q + 0)%Q.
Proof.
  eexists. eexists. eexists.
  split; [vm_compute; reflexivity|]. split; [reflexivity|].
  split; [reflexivity|]. split; [reflexivity|].
  split; [vm_compute; reflexivity|]. split; [reflexivity|].
  discriminate.
Qed.

(** C2 fails: the label is the backend's on a response that decodes (90
    under medium strictness comes out REJECTED, 50 comes out SHORTLISTED),
    and MAYBE when the decoding fails (80.5 under medium strictness),
    where the table gives SHORTLISTED, REJECTED and SHORTLISTED. *)
Lemma verdict_label_not_thresholded :
  field "verdict" (verdict_of (referee_agent some_key scenario_state (response 90 "REJECTED")))
  = Some (JStr "REJECTED")
  /\ spec_verdict "medium" 90 = Some "SHORTLISTED"
  /\ field "verdict" (verdict_of (referee_agent some_key scenario_state (response 50 "SHORTLISTED")))
     = Some (JStr "SHORTLISTED")
  /\ spec_verdict "medium" 50 = Some "REJECTED"
  /\ field "verdict" (verdict_of (referee_agent some_key scenario_state DecodeError))
     = Some (JStr "MAYBE")
  /\ (exists q, num_field "final_score"
                  (verdict_of (referee_agent some_key scenario_state DecodeError))
                = Some q /\ (q == 805#10)%Q)
  /\ spec_verdict "medium" (805#10) = Some "SHORTLISTED".
Proof.
  split; [vm_compute; reflexivity|]. split; [vm_compute; reflexivity|].
  split; [vm_compute; reflexivity|]. split; [vm_compute; reflexivity|].
  split; [vm_compute; reflexivity|].
  split; [eexists; split; [vm_compute; reflexivity | reflexivity]|].
  vm_compute; reflexivity.
Qed.



(** C8 fails: a strictness that is none of low, medium, high is passed on
    as it is. *)
Lemma unrecognised_strictness_kept :
  exists c,
    referee_prepare some_key
      (sample_state (criteria_of default_weights "extreme") 80 70 90 60 100 0) = Ok c
    /\ mem "extreme" ["low"; "medium"; "high"] = false
    /\ strictness c = JStr "extreme"
    /\ strictness c <> JStr "medium".
Proof.
  eexists. split; [vm_compute; reflexivity|]. split; [reflexivity|].
  split; [reflexivity|]. discriminate.
Qed.

(** * Further properties of the stream *)

Lemma display_name_unknown n :
  mem n graph_nodes = false -> display_name n agent_display_names = None.
Proof.
  unfold mem, graph_nodes, agent_display_names. simpl.
  repeat (destruct (String.eqb n _); simpl; [discriminate|]).
  reflexivity.
Qed.

Lemma passes_by_yields_nothing ev :
  passes_by ev = true -> handle_event ev = Ok None.
Proof.
  destruct ev as [t n o]. unfold passes_by, handle_event.
  cbn [event_type langgraph_node output].
  destruct (String.eqb t "on_chain_end"); cbn [negb orb]; [|reflexivity].
  destruct (mem n graph_nodes) eqn:M; cbn [negb orb].
  - apply mem_In in M. unfold graph_nodes in M. simpl in M.
    repeat destruct M as [M|M]; try contradiction; subst n;
      unfold result_key, score_key_of; simpl;
      (destruct o; try discriminate; simpl;
       match goal with
       | |- context [lookup ?k ?d] =>
           destruct (lookup k d); [discriminate | intros _; reflexivity]
       end).
  - intros _. rewrite (display_name_unknown n M).
    destruct (negb (String.eqb n "")); reflexivity.
Qed.

(** The stream does not change when an event the loop passes by is
    taken out of the events, wherever it stands. *)
Theorem stream_skips_passed_events
  (before_ev after_ev : list graph_event) (ev : graph_event) (fin : option exn) :
  passes_by ev = true ->
  stream_agent_analysis (before_ev ++ ev :: after_ev) fin
  = stream_agent_analysis (before_ev ++ after_ev) fin.
Proof.
  intros H. apply passes_by_yields_nothing in H.
  induction before_ev as [|x l IH]; simpl.
  - rewrite H. reflexivity.
  - destruct (handle_event x) as [[m|]|e]; [rewrite IH| |]; auto.
Qed.

Lemma stream_skips_passed_events_witness :
  passes_by {| event_type := "on_chat_model_stream";
               langgraph_node := "resume_analyst"; output := JNull |} = true
  /\ stream_agent_analysis
       (firstn 4 sample_events
        ++ {| event_type := "on_chat_model_stream";
              langgraph_node := "resume_analyst"; output := JNull |}
           :: skipn 4 sample_events) None
     = stream_agent_analysis (firstn 4 sample_events ++ skipn 4 sample_events) None.
Proof.
  split; [reflexivity|].
  apply (stream_skips_passed_events (firstn 4 sample_events) (skipn 4 sample_events)).
  reflexivity.
Defined.

(** Once an event makes the loop raise, the stream is the messages
    yielded so far and the error event of that exception: the events
    after it and the way the graph ends are not reported. *)
Theorem stream_stops_at_first_exception
  (before_ev after_ev : list graph_event) (ev : graph_event) (e : exn)
  (fin : option exn) :
  forallb no_raise before_ev = true ->
  handle_event ev = Raise e ->
  stream_agent_analysis (before_ev ++ ev :: after_ev) fin
  = (task_messages before_ev ++ [error_message e])%list.
Proof.
  intros Hq He. induction before_ev as [|x l IH]; simpl.
  - rewrite He. reflexivity.
  - simpl in Hq. apply andb_prop in Hq. destruct Hq as [Hx Hl].
    unfold no_raise in Hx.
    destruct (handle_event x) as [[m|]|e']; try discriminate; rewrite (IH Hl); reflexivity.
Qed.

Lemma stream_stops_at_first_exception_witness :
  forallb no_raise (firstn 5 sample_events) = true
  /\ handle_event (completion_event "location_coordinator"
                     [("location_score", JArr [])]) = Raise (AttributeError "get")
  /\ stream_agent_analysis
       (firstn 5 sample_events
        ++ completion_event "location_coordinator" [("location_score", JArr [])]
           :: skipn 5 sample_events) None
     = (task_messages (firstn 5 sample_events)
        ++ [error_message (AttributeError "get")])%list.
Proof.
  split; [reflexivity|]. split; [reflexivity|].
  apply (stream_stops_at_first_exception (firstn 5 sample_events)
           (skipn 5 sample_events)); reflexivity.
Defined.

(** * Further properties of the nodes *)

Lemma run_node_on_well_formed node key st out :
  In node graph_nodes -> key <> "" -> well_formed_state st = true ->
  exists upd,
    run_node node (Some key) st out = Some (Ok upd) /\ falls_back node out upd.
Proof.
  intros Hn Hk Hw. unfold graph_nodes in Hn. simpl in Hn.
  destruct Hn as [<-|[<-|[<-|[<-|[<-|[<-|[<-|[]]]]]]]]; unfold run_node; simpl.
  - destruct (resume_analyst_total key st out Hk Hw) as (upd & -> & F). eauto.
  - destruct (cover_letter_analyst_total key st out Hk Hw) as (upd & -> & F). eauto.
  - destruct (jd_match_analyst_total key st out Hk Hw) as (upd & -> & F). eauto.
  - destruct (github_analyst_total key st out Hk Hw) as (upd & -> & F). eauto.
  - destruct (location_coordinator_total key st out Hk Hw) as (upd & -> & F). eauto.
  - destruct (fairness_auditor_total key st out Hk Hw) as (upd & -> & F). eauto.
  - destruct (referee_agent_total key st out Hk Hw) as (upd & -> & F). eauto.
Qed.

(** A response that decodes to JSON other than an object is returned by
    the node as it is, and the loop raises [AttributeError] when it comes
    to report it: the node's event is lost and the stream ends with the
    error event. *)
Theorem non_object_response_breaks_report
  (node key : string) (st : dict) (v : json) :
  In node graph_nodes -> key <> "" -> well_formed_state st = true ->
  is_obj v = false ->
  run_node node (Some key) st (Decoded v) = Some (Ok [(result_key node, v)])
  /\ handle_event (completion_event node [(result_key node, v)])
     = Raise (AttributeError "get").
Proof.
  intros Hn Hk Hw Hv.
  destruct (run_node_on_well_formed node key st (Decoded v) Hn Hk Hw) as (upd & Hr & Hf).
  simpl in Hf. subst upd. split; [exact Hr|].
  unfold graph_nodes in Hn. simpl in Hn.
  destruct Hn as [<-|[<-|[<-|[<-|[<-|[<-|[<-|[]]]]]]]];
    destruct v; try discriminate Hv; reflexivity.
Qed.

Lemma non_object_response_breaks_report_witness :
  In "jd_match_analyst" graph_nodes
  /\ "gsk_key" <> ""
  /\ well_formed_state scenario_state = true
  /\ is_obj (JArr [JNum 90]) = false
  /\ run_node "jd_match_analyst" (Some "gsk_key") scenario_state
              (Decoded (JArr [JNum 90]))
     = Some (Ok [("jd_match_score", JArr [JNum 90])])
  /\ handle_event (completion_event "jd_match_analyst"
                     [("jd_match_score", JArr [JNum 90])])
     = Raise (AttributeError "get").
Proof.
  split; [simpl; auto 10|]. split; [discriminate|].
  split; [reflexivity|]. split; [reflexivity|].
  apply (non_object_response_breaks_report "jd_match_analyst" "gsk_key"
           scenario_state (JArr [JNum 90])).
  - simpl; auto 10.
  - discriminate.
  - reflexivity.
  - reflexivity.
Defined.



Lemma fairness_auditor_reads_scores env st out upd :
  fairness_auditor env st out = Ok upd ->
  forall key, In key score_keys -> exists v, collect_score st key = Ok v.
Proof.
  unfold fairness_auditor, collect_score. intros H.
  do 7 inv_bind H. cbv zeta in H. do 5 inv_bind H.
  intros key Hk. unfold score_keys in Hk. simpl in Hk.
  destruct Hk as [<-|[<-|[<-|[<-|[<-|[]]]]]]; eauto.
Qed.

Lemma referee_agent_reads_scores env st out upd :
  referee_agent env st out = Ok upd ->
  forall key, In key score_keys -> exists v, collect_score st key = Ok v.
Proof.
  unfold referee_agent. intros H. inv_bind H.
  destruct (referee_prepare_inv _ _ _ E) as (_ & H1 & H2 & H3 & H4 & H5 & _).
  intros key Hk. unfold score_keys in Hk. simpl in Hk.
  destruct Hk as [<-|[<-|[<-|[<-|[<-|[]]]]]]; eauto.
Qed.

(** If the slot of one of the five analysts holds something other than a
    dict, the fairness auditor and the referee raise, whatever the backend
    answers: both read the score before their [try]. *)
Theorem non_object_slot_stops_later_layers
  (env : environ) (st : dict) (out : llm_outcome) (key : string) (v : json) :
  In key score_keys -> lookup key st = Some v -> is_obj v = false ->
  (exists e, fairness_auditor env st out = Raise e)
  /\ (exists e, referee_agent env st out = Raise e).
Proof.
  intros Hk Hl Hv.
  assert (Hc : forall x, collect_score st key <> Ok x).
  { intros x. unfold collect_score, state_get. rewrite Hl.
    destruct v; discriminate. }
  split.
  - destruct (fairness_auditor env st out) as [upd|e] eqn:E; [|eauto].
    destruct (fairness_auditor_reads_scores _ _ _ _ E key Hk) as [x Hx].
    destruct (Hc x Hx).
  - destruct (referee_agent env st out) as [upd|e] eqn:E; [|eauto].
    destruct (referee_agent_reads_scores _ _ _ _ E key Hk) as [x Hx].
    destruct (Hc x Hx).
Qed.

Lemma non_object_slot_stops_later_layers_witness :
  In "github_score" score_keys
  /\ lookup "github_score"
       (("github_score", JArr []) :: scenario_state) = Some (JArr [])
  /\ is_obj (JArr []) = false
  /\ (exists e, fairness_auditor some_key (("github_score", JArr []) :: scenario_state)
                  DecodeError = Raise e)
  /\ (exists e, referee_agent some_key (("github_score", JArr []) :: scenario_state)
                  DecodeError = Raise e).
Proof.
  split; [simpl; auto 10|]. split; [reflexivity|]. split; [reflexivity|].
  apply (non_object_slot_stops_later_layers some_key
           (("github_score", JArr []) :: scenario_state) DecodeError
           "github_score" (JArr [])).
  - simpl; auto 10.
  - reflexivity.
  - reflexivity.
Defined.

(** * Further properties of the referee's arithmetic *)













(** The breakdown the fallback verdict reports adds up: the five
    weighted scores and the adjustment applied give the final score. *)
Theorem fallback_breakdown_adds_up
  (env : environ) (st : dict) (c : referee_locals) (out : llm_outcome) (a : Q) :
  referee_prepare env st = Ok c ->
  as_num (total_fairness_adjustment c) = Some a ->
  failed out = true ->
  exists verdict jd gh re cl lo,
    referee_agent env st out = Ok [("final_verdict", JObj verdict)]
    /\ lookup "weighted_scores" verdict
       = Some (JObj [("jd_match_weighted", JNum jd);
                     ("github_weighted", JNum gh);
                     ("resume_weighted", JNum re);
                     ("cover_letter_weighted", JNum cl);
                     ("location_weighted", JNum lo)])
    /\ lookup "final_score" verdict = Some (JNum (jd + gh + re + cl + lo + a))
    /\ lookup "fairness_adjustment_applied" verdict
       = Some (total_fairness_adjustment c).
Proof.
  intros Hp Ha Hf. unfold referee_agent. rewrite Hp. cbn [bind].
  destruct (referee_prepare_inv _ _ _ Hp) as (_ & _ & _ & _ & _ & _ & _ & _ & _ & Hw).
  apply weighted_sum_inv in Hw.
  destruct Hw as (qjd & qgh & qre & qcl & qlo & wjd & wgh & wre & wcl & wlo
                  & H1 & H2 & H3 & H4 & H5 & H6 & H7 & H8 & H9 & H10 & Hv).
  destruct out as [v| |msg]; [discriminate Hf| |];
    unfold referee_decide, weighted_scores, py_add, py_mul;
    rewrite Hv, Ha, H1, H2, H3, H4, H5, H6, H7, H8, H9, H10; cbn [as_num bind];
    do 6 eexists; repeat (split; [reflexivity|]); reflexivity.
Qed.

Lemma fallback_breakdown_adds_up_witness :
  exists c,
    referee_prepare some_key scenario_state = Ok c
    /\ as_num (total_fairness_adjustment c) = Some 0%Q
    /\ failed (InvokeError "rate limit") = true
    /\ exists verdict jd gh re cl lo,
         referee_agent some_key scenario_state (InvokeError "rate limit")
         = Ok [("final_verdict", JObj verdict)]
         /\ lookup "weighted_scores" verdict
            = Some (JObj [("jd_match_weighted", JNum jd);
                          ("github_weighted", JNum gh);
                          ("resume_weighted", JNum re);
                          ("cover_letter_weighted", JNum cl);
                          ("location_weighted", JNum lo)])
         /\ lookup "final_score" verdict = Some (JNum (jd + gh + re + cl + lo + 0))
         /\ lookup "fairness_adjustment_applied" verdict
            = Some (total_fairness_adjustment c).
Proof.
  eexists. split; [vm_compute; reflexivity|].
  split; [reflexivity|]. split; [reflexivity|].
  match goal with
  | |- context [total_fairness_adjustment ?c] =>
      apply (fallback_breakdown_adds_up some_key scenario_state c
               (InvokeError "rate limit") 0)
  end; reflexivity.
Defined.

(** * The preprocessor and the endpoints *)

Lemma enrich_candidate_data_shape strip pdf http file_name github_url cover jd ja :
  enrich_candidate_data strip pdf http file_name github_url cover jd = Ok ja ->
  exists resume_text username repos,
    ja = JObj [
      ("personal_info",
       JObj [("name", JStr "Candidate");
             ("email", JStr "candidate@example.com");
             ("location", JObj [("city", JStr "Unknown"); ("country", JStr "Unknown")]);
             ("github_url", JStr github_url);
             ("willing_to_relocate", JBool false);
             ("gender", JStr "Not disclosed");
             ("age", JStr "Not disclosed")]);
      ("resume", JObj [("text", JStr resume_text); ("file_name", JStr file_name)]);
      ("cover_letter", JObj [("text", JStr cover)]);
      ("github",
       JObj [("username", JStr username);
             ("url", JStr github_url);
             ("repo_list", JArr repos)]);
      ("job_description", parse_job_description jd)].
Proof.
  unfold enrich_candidate_data. intros H. inv_bind H.
  destruct (fetch_github_repos strip http github_url) as [u r].
  injection H as <-. eauto.
Qed.

Lemma initial_state_well_formed ja criteria :
  obj_with well_formed_application ja = true ->
  criteria = JNull \/ obj_with well_formed_criteria criteria = true ->
  well_formed_state (initial_state ja criteria) = true.
Proof.
  intros Hja Hc. unfold well_formed_state, initial_state. simpl.
  rewrite Hja. simpl.
  assert (Hja' : is_obj ja = true) by (destruct ja; try discriminate; reflexivity).
  rewrite Hja'. simpl.
  destruct Hc as [->|Hc]; [reflexivity|].
  destruct criteria; try discriminate. unfold opt_field. simpl. simpl in Hc.
  rewrite Hc. reflexivity.
Qed.

(** An application the preprocessor builds has the shape the analysts
    read: with the credential set and criteria absent or well-formed,
    each of the five analysts returns on the initial state, whatever the
    uploads were and whatever the backend does. *)
Theorem preprocessed_application_runs
  (strip : string -> string) (pdf : result (list string))
  (http : string -> http_reply)
  (file_name github_url cover jd : string) (ja criteria : json)
  (node key : string) (out : llm_outcome) :
  enrich_candidate_data strip pdf http file_name github_url cover jd = Ok ja ->
  criteria = JNull \/ obj_with well_formed_criteria criteria = true ->
  In node layer1 -> key <> "" ->
  well_formed_state (initial_state ja criteria) = true
  /\ exists upd,
       run_node node (Some key) (initial_state ja criteria) out = Some (Ok upd)
       /\ falls_back node out upd.
Proof.
  intros He Hc Hn Hk.
  apply enrich_candidate_data_shape in He.
  destruct He as (resume_text & username & repos & ->).
  assert (Hw : well_formed_state
                 (initial_state
                    (JObj [
                       ("personal_info",
                        JObj [("name", JStr "Candidate");
                              ("email", JStr "candidate@example.com");
                              ("location", JObj [("city", JStr "Unknown");
                                                 ("country", JStr "Unknown")]);
                              ("github_url", JStr github_url);
                              ("willing_to_relocate", JBool false);
                              ("gender", JStr "Not disclosed");
                              ("age", JStr "Not disclosed")]);
                       ("resume", JObj [("text", JStr resume_text);
                                        ("file_name", JStr file_name)]);
                       ("cover_letter", JObj [("text", JStr cover)]);
                       ("github",
                        JObj [("username", JStr username);
                              ("url", JStr github_url);
                              ("repo_list", JArr repos)]);
                       ("job_description", parse_job_description jd)])
                    criteria) = true).
  { apply initial_state_well_formed; [reflexivity | exact Hc]. }
  split; [exact Hw|].
  apply run_node_on_well_formed; [|exact Hk | exact Hw].
  unfold layer1 in Hn. unfold graph_nodes. simpl in *. intuition.
Qed.

Lemma preprocessed_application_runs_witness :
  exists ja,
    enrich_candidate_data (fun s => s) (Ok ["Ada Lovelace"; "Python, SQL"])
      (fun _ => Reply 403 None) "cv.PDF" "https://github.com/ada/"
      "I would like to join." "Senior engineer, remote" = Ok ja
    /\ well_formed_state (initial_state ja JNull) = true
    /\ exists upd,
         run_node "github_analyst" (Some "gsk_key") (initial_state ja JNull)
                  (InvokeError "timed out") = Some (Ok upd)
         /\ falls_back "github_analyst" (InvokeError "timed out") upd.
Proof.
  eexists. split; [vm_compute; reflexivity|].
  match goal with
  | |- well_formed_state (initial_state ?ja _) = true /\ _ =>
      apply (preprocessed_application_runs (fun s => s)
               (Ok ["Ada Lovelace"; "Python, SQL"]) (fun _ => Reply 403 None)
               "cv.PDF" "https://github.com/ada/" "I would like to join."
               "Senior engineer, remote" ja JNull "github_analyst" "gsk_key"
               (InvokeError "timed out"))
  end.
  - vm_compute; reflexivity.
  - left; reflexivity.
  - simpl; auto 10.
  - discriminate.
Defined.

Lemma referee_prepare_names env st c :
  referee_prepare env st = Ok c ->
  exists ja info jd,
    lookup "job_application" st = Some ja
    /\ py_get ja "personal_info" (JObj []) = Ok info
    /\ py_get info "name" (JStr "Unknown") = Ok (candidate_name c)
    /\ py_get ja "job_description" (JObj []) = Ok jd
    /\ py_get jd "role" (JStr "Unknown") = Ok (job_role c)
    /\ py_get jd "company_name" (JStr "Unknown") = Ok (company_name c).
Proof.
  unfold referee_prepare. intros H.
  inv_bind H. do 5 inv_bind H. cbv zeta in H. inv_binds H.
  injection H as <-. simpl.
  match goal with
  | Hs : subscript st "job_application" = Ok ?ja |- _ =>
      unfold subscript in Hs;
      destruct (lookup "job_application" st) as [ja'|]; [|discriminate Hs];
      injection Hs as Hs; subst ja'
  end.
  match goal with
  | H1 : py_get ?ja "personal_info" _ = Ok ?info,
    H2 : py_get ?info "name" _ = Ok _,
    H4 : py_get ?jd1 "role" _ = Ok _,
    H3 : py_get ?ja "job_description" _ = Ok ?jd1,
    H6 : py_get ?jd2 "company_name" _ = Ok _,
    H5 : py_get ?ja "job_description" _ = Ok ?jd2 |- _ =>
      rewrite H3 in H5; injection H5 as H5; subst jd2;
      exists ja, info, jd1; auto 10
  end.
Qed.

(** For an application the preprocessor builds, the referee's prompt
    names the candidate "Candidate" and the role "Unknown", whatever the
    job description says: the parser stores the role under [role_title],
    the referee reads [role]. *)
Theorem referee_never_sees_parsed_role
  (strip : string -> string) (pdf : result (list string))
  (http : string -> http_reply)
  (file_name github_url cover jd : string) (ja : json)
  (env : environ) (st : dict) (c : referee_locals) :
  enrich_candidate_data strip pdf http file_name github_url cover jd = Ok ja ->
  lookup "job_application" st = Some ja ->
  referee_prepare env st = Ok c ->
  job_role c = JStr "Unknown"
  /\ company_name c = JStr "Unknown Company"
  /\ candidate_name c = JStr "Candidate"
  /\ exists title, field "role_title" (parse_job_description jd) = Some (JStr title).
Proof.
  intros He Hl Hp.
  apply enrich_candidate_data_shape in He.
  destruct He as (resume_text & username & repos & ->).
  destruct (referee_prepare_names env st c Hp)
    as (ja & info & jd' & Hja & H1 & H2 & H3 & H4 & H5).
  rewrite Hl in Hja. injection Hja as <-.
  simpl in H1. injection H1 as <-. simpl in H2. injection H2 as ->.
  simpl in H3. injection H3 as <-.
  unfold parse_job_description in H4, H5. simpl in H4, H5.
  injection H4 as ->. injection H5 as ->.
  repeat (split; [reflexivity|]).
  unfold parse_job_description. simpl. eauto.
Qed.

Lemma referee_never_sees_parsed_role_witness :
  exists ja c,
    enrich_candidate_data (fun s => s) (Ok ["Ada Lovelace"])
      (fun _ => RequestFailed) "cv.pdf" "ada" "Dear team" "Senior engineer, remote"
    = Ok ja
    /\ lookup "job_application" (("job_application", ja) :: scenario_state) = Some ja
    /\ referee_prepare some_key (("job_application", ja) :: scenario_state) = Ok c
    /\ job_role c = JStr "Unknown"
    /\ field "role_title" (parse_job_description "Senior engineer, remote")
       = Some (JStr "Senior Engineer").
Proof.
  eexists. eexists. split; [vm_compute; reflexivity|].
  split; [reflexivity|]. split; [vm_compute; reflexivity|].
  split; [|vm_compute; reflexivity].
  match goal with
  | |- job_role ?c = _ =>
      match type of c with
      | _ =>
          refine (proj1 (referee_never_sees_parsed_role (fun s => s)
                           (Ok ["Ada Lovelace"]) (fun _ => RequestFailed)
                           "cv.pdf" "ada" "Dear team" "Senior engineer, remote"
                           _ some_key
                           (("job_application", _) :: scenario_state) c
                           _ _ _));
          [vm_compute; reflexivity | reflexivity | vm_compute; reflexivity]
      end
  end.
Defined.

(** Criteria that are JSON but no object reach the graph as they are,
    and the referee then raises whatever the backend answers: it calls
    [get] on them before its [try]. *)
Theorem non_object_criteria_stop_referee
  (ja v : json) (env : environ) (st : dict) (out : llm_outcome) :
  is_obj v = false -> v <> JNull ->
  lookup "hiring_criteria" st = Some v ->
  lookup "hiring_criteria" (initial_state ja v) = Some v
  /\ exists e, referee_agent env st out = Raise e.
Proof.
  intros Hv Hn Hl. split.
  - unfold initial_state. destruct v; try reflexivity. congruence.
  - destruct (referee_agent env st out) as [upd|e] eqn:E; [|eauto].
    unfold referee_agent in E. inv_bind E.
    destruct (referee_prepare_inv _ _ _ E0) as (_ & _ & _ & _ & _ & _ & (w0 & Hw0 & _) & _).
    unfold supplied_weights, state_get in Hw0. rewrite Hl in Hw0.
    destruct v; discriminate.
Qed.

Lemma non_object_criteria_stop_referee_witness :
  is_obj (JArr []) = false
  /\ JArr [] <> JNull
  /\ lookup "hiring_criteria" (initial_state sample_application (JArr []))
     = Some (JArr [])
  /\ exists e, referee_agent some_key (initial_state sample_application (JArr []))
                 DecodeError = Raise e.
Proof.
  split; [reflexivity|]. split; [discriminate|].
  apply (non_object_criteria_stop_referee sample_application (JArr []) some_key
           (initial_state sample_application (JArr [])) DecodeError).
  - reflexivity.
  - discriminate.
  - reflexivity.
Defined.

(** The [HTTPException] with status 400 that an endpoint raises inside
    its [try] keeps its status in [analyze_candidate], which re-raises
    it, and becomes a 500 in [analyze_application], which has no clause
    for it: the legacy endpoint never answers 400, and answers 500 to an
    empty job application. *)
Theorem legacy_endpoint_turns_400_into_500 :
  (forall strip loads pdf http file_name github_url cover jd criteria,
      ends_with ".pdf" (lower file_name) = false ->
      analyze_candidate strip loads pdf http (Some file_name) github_url cover jd
                        criteria
      = HTTPError 400 "Resume must be a PDF file")
  /\ (forall criteria,
         analyze_application_body [] criteria
         = inl (HTTP_exception 400 "job_application field is required")
         /\ status_of (analyze_application [] criteria) = 500%nat)
  /\ (forall job_application criteria,
         status_of (analyze_application job_application criteria) <> 400%nat).
Proof.
  split; [|split].
  - intros. unfold analyze_candidate, analyze_candidate_body. rewrite H. reflexivity.
  - intros criteria. split; reflexivity.
  - intros [|kv ja] criteria; simpl; discriminate.
Qed.


(** Criteria that are absent, empty, or the JSON [null] make the graph
    start with the default weights and medium strictness. *)
Theorem missing_criteria_take_defaults
  (strip : string -> string) (loads : string -> option json)
  (pdf : result (list string)) (http : string -> http_reply)
  (filename : option string) (github_url cover jd : string)
  (criteria : option string) (ja supplied : json) :
  analyze_candidate strip loads pdf http filename github_url cover jd criteria
  = StreamingResponse ja supplied ->
  criteria = None \/ criteria = Some ""
  \/ (exists text, criteria = Some text /\ loads text = Some JNull) ->
  lookup "hiring_criteria" (initial_state ja supplied) = Some default_criteria.
Proof.
  unfold analyze_candidate, analyze_candidate_body. intros H Hc.
  destruct filename as [file_name|]; [|discriminate H].
  destruct (negb (ends_with ".pdf" (lower file_name))); [discriminate H|].
  assert (Hs : supplied = default_criteria \/ supplied = JNull).
  { destruct Hc as [->|[->|(text & -> & Hl)]].
    - simpl in H.
      destruct (enrich_candidate_data strip pdf http file_name github_url cover jd)
        as [x|[]]; try discriminate H; injection H as _ <-; auto.
    - simpl in H.
      destruct (enrich_candidate_data strip pdf http file_name github_url cover jd)
        as [x|[]]; try discriminate H; injection H as _ <-; auto.
    - destruct (String.eqb text ""); [|rewrite Hl in H];
        destruct (enrich_candidate_data strip pdf http file_name github_url cover jd)
          as [x|[]]; try discriminate H; injection H as _ <-; auto. }
  destruct Hs as [->| ->]; reflexivity.
Qed.

Lemma missing_criteria_take_defaults_witness :
  exists ja,
    analyze_candidate (fun s => s) (fun _ => Some JNull) (Ok ["Ada Lovelace"])
      (fun _ => RequestFailed) (Some "cv.pdf") "ada" "Dear team" "Engineer, hybrid"
      (Some "null")
    = StreamingResponse ja JNull
    /\ lookup "hiring_criteria" (initial_state ja JNull) = Some default_criteria.
Proof.
  eexists. split; [vm_compute; reflexivity|].
  match goal with
  | |- lookup _ (initial_state ?ja _) = _ =>
      apply (missing_criteria_take_defaults (fun s => s) (fun _ => Some JNull)
               (Ok ["Ada Lovelace"]) (fun _ => RequestFailed) (Some "cv.pdf")
               "ada" "Dear team" "Engineer, hybrid" (Some "null") ja JNull)
  end.
  - vm_compute; reflexivity.
  - right. right. exists "null". split; reflexivity.
Defined.

(** ** The repository list *)

Lemma py_lt_num a b x y :
  as_num a = Some x -> as_num b = Some y -> py_lt a b = Ok (negb (Qle_bool y x)).
Proof.
  destruct a; try discriminate; destruct b; try discriminate; simpl;
    intros Ha Hb; rewrite ?Ha, ?Hb; try reflexivity;
    repeat match goal with
           | b : bool |- _ => destruct b
           end; simpl in *; congruence.
Qed.

Lemma repo_entry_starred repo :
  counted repo = true -> exists e, repo_entry repo = Ok e /\ starred e.
Proof.
  unfold counted, repo_entry. destruct repo; try discriminate. simpl.
  intros H. eexists. split; [reflexivity|].
  unfold starred, stars_num. simpl.
  destruct (lookup "stargazers_count" fields) as [v|].
  - unfold is_num in H. destruct (as_num v) as [q|] eqn:E; [|discriminate].
    exists v, q. rewrite E. auto.
  - exists (JNum 0), 0%Q. auto.
Qed.

Lemma repo_entries_starred repos_data :
  Forall (fun r => counted r = true) repos_data ->
  exists entries,
    repo_entries repos_data = Ok entries
    /\ Forall starred entries
    /\ List.length entries = List.length repos_data.
Proof.
  induction 1 as [|r l Hr Hl IH]; simpl; [eauto|].
  destruct (repo_entry_starred r Hr) as (e & -> & He).
  destruct IH as (es & -> & Hes & Hlen). simpl.
  eexists. split; [reflexivity|]. split; [constructor; assumption|].
  simpl. congruence.
Qed.

Lemma insert_by_stars_sorted x sorted :
  starred x -> Forall starred sorted -> StronglySorted by_stars sorted ->
  exists r,
    insert_by_stars x sorted = Ok r
    /\ Permutation (x :: sorted) r
    /\ StronglySorted by_stars r
    /\ Forall starred r.
Proof.
  intros (vx & qx & Ix & Nx & Sx). induction sorted as [|y rest IH]; intros Hs Hso.
  - simpl. exists [x]. repeat split.
    + apply Permutation_refl.
    + repeat constructor.
    + repeat constructor. exists vx, qx. auto.
  - apply Forall_cons_iff in Hs. destruct Hs as [Hy Hrest].
    pose proof Hy as (vy & qy & Iy & Ny & Sy).
    apply StronglySorted_inv in Hso. destruct Hso as [Hso Hall].
    simpl. rewrite Ix, Iy. cbn [bind]. rewrite (py_lt_num vx vy qx qy Nx Ny). cbn [bind].
    destruct (Qle_bool qy qx) eqn:Hle; cbn [negb].
    + apply Qle_bool_iff in Hle.
      exists (x :: y :: rest). repeat split.
      * apply Permutation_refl.
      * constructor; [constructor; assumption|].
        constructor; [unfold by_stars; rewrite Sx, Sy; exact Hle|].
        rewrite Forall_forall in Hall |- *. intros z Hz.
        specialize (Hall z Hz). unfold by_stars in *.
        rewrite Sx. rewrite Sy in Hall. lra.
      * constructor; [exists vx, qx; auto|]. constructor; assumption.
    + assert (Hlt : (qx < qy)%Q).
      { destruct (Qlt_le_dec qx qy) as [Hlt|Hge]; [exact Hlt|].
        apply Qle_bool_iff in Hge. congruence. }
      destruct (IH Hrest Hso) as (r & -> & Hp & Hsr & Hfr). cbn [bind].
      exists (y :: r). repeat split.
      * apply (Permutation_trans (perm_swap y x rest)).
        apply perm_skip. exact Hp.
      * constructor; [exact Hsr|].
        rewrite Forall_forall. intros z Hz.
        apply (Permutation_in z (Permutation_sym Hp)) in Hz.
        destruct Hz as [<-|Hz].
        -- unfold by_stars. rewrite Sx, Sy. lra.
        -- rewrite Forall_forall in Hall. exact (Hall z Hz).
      * constructor; assumption.
Qed.

Lemma sort_by_stars_sorted entries :
  Forall starred entries ->
  exists r,
    sort_by_stars entries = Ok r
    /\ Permutation entries r
    /\ StronglySorted by_stars r
    /\ Forall starred r.
Proof.
  induction 1 as [|x l Hx Hl IH]; simpl.
  - exists []. repeat split; constructor.
  - destruct IH as (s & -> & Hp & Hs & Hf). cbn [bind].
    destruct (insert_by_stars_sorted x s Hx Hf Hs) as (r & -> & Hp' & Hs' & Hf').
    exists r. repeat split; try assumption.
    apply (Permutation_trans (perm_skip x Hp)). exact Hp'.
Qed.

(** When GitHub answers 200 with a list of repositories whose star
    counts are numbers, the list returned has one six-field entry for
    each of them, rearranged by non-increasing stars. *)
Theorem fetched_repos_sorted_by_stars
  (strip : string -> string) (http : string -> http_reply)
  (github_url : string) (repos_data : list json) :
  http (api_url (github_username strip github_url))
  = Reply 200 (Some (JArr repos_data)) ->
  Forall (fun r => counted r = true) repos_data ->
  exists entries sorted,
    repo_entries repos_data = Ok entries
    /\ fetch_github_repos strip http github_url
       = (github_username strip github_url, sorted)
    /\ Permutation entries sorted
    /\ List.length sorted = List.length repos_data
    /\ StronglySorted by_stars sorted.
Proof.
  intros Hh Hc.
  destruct (repo_entries_starred repos_data Hc) as (entries & He & Hs & Hlen).
  destruct (sort_by_stars_sorted entries Hs) as (sorted & Hsort & Hp & Hso & _).
  exists entries, sorted. split; [exact He|].
  unfold fetch_github_repos. fold (api_url (github_username strip github_url)).
  rewrite Hh. simpl. rewrite He. cbn [bind]. rewrite Hsort.
  repeat split; try assumption.
  rewrite <- (Permutation_length Hp). exact Hlen.
Qed.

Lemma fetched_repos_sorted_by_stars_witness :
  exists sorted,
    fetch_github_repos (fun s => s)
      (fun _ => Reply 200 (Some (JArr [JObj [("name", JStr "a"); ("stargazers_count", JNum 3)];
                                       JObj [("name", JStr "b"); ("stargazers_count", JNum 7)];
                                       JObj [("name", JStr "c")]])))
      "https://github.com/ada/"
    = ("ada", sorted)
    /\ List.length sorted = 3%nat
    /\ StronglySorted by_stars sorted.
Proof.
  destruct (fetched_repos_sorted_by_stars (fun s => s)
              (fun _ => Reply 200 (Some (JArr [JObj [("name", JStr "a"); ("stargazers_count", JNum 3)];
                                               JObj [("name", JStr "b"); ("stargazers_count", JNum 7)];
                                               JObj [("name", JStr "c")]])))
              "https://github.com/ada/" _ eq_refl)
    as (entries & sorted & _ & Hf & _ & Hl & Hs).
  - repeat constructor.
  - exists sorted. auto.
Defined.

Lemma append_slash_not_empty r : (r ++ "/")%string <> "".
Proof. destruct r; discriminate. Qed.

Lemma rstrip_slash_no_trailing_slash s r : rstrip_slash s <> (r ++ "/")%string.
Proof.
  revert r. induction s as [|c s IH]; simpl; intros r.
  - intros H. symmetry in H. revert H. apply append_slash_not_empty.
  - destruct (rstrip_slash s) as [|d t] eqn:E.
    + destruct (Ascii.eqb_spec c "/") as [->|Hc].
      * intros H. symmetry in H. revert H. apply append_slash_not_empty.
      * destruct r as [|c' r]; simpl; intros H.
        -- injection H as H1. contradiction.
        -- injection H as _ H2. symmetry in H2. revert H2.
           apply append_slash_not_empty.
    + destruct r as [|c' r]; simpl; intros H.
      * discriminate H.
      * injection H as _ H2. exact (IH r H2).
Qed.

(** For a URL that holds "github.com/", the user name is the text after
    its last occurrence without the slashes that end it: what is returned
    never ends with a slash. *)
Theorem username_has_no_trailing_slash
  (strip : string -> string) (github_url r : string) :
  contains "github.com/" github_url = true ->
  github_username strip github_url
  = rstrip_slash (last_part "github.com/" github_url)
  /\ github_username strip github_url <> (r ++ "/")%string.
Proof.
  intros H. unfold github_username. rewrite H. split; [reflexivity|].
  apply rstrip_slash_no_trailing_slash.
Qed.

Lemma username_has_no_trailing_slash_witness :
  contains "github.com/" "https://github.com/ada//" = true
  /\ github_username (fun s => s) "https://github.com/ada//" = "ada".
Proof.
  split; [reflexivity|].
  rewrite (proj1 (username_has_no_trailing_slash (fun s => s)
                    "https://github.com/ada//" "" eq_refl)).
  reflexivity.
Defined.

(** * How the layers compose *)

(** The score of an analyst that fell back is the score the referee
    uses for that source: 0, or 50 for the location. *)
Theorem fallback_score_reaches_referee
  (node key : string) (st0 : dict) (out : llm_outcome) :
  In node layer1 -> key <> "" -> well_formed_state st0 = true ->
  failed out = true ->
  exists r q,
    run_node node (Some key) st0 out = Some (Ok [(result_key node, r)])
    /\ fallback_score node = Some q
    /\ forall env st c,
         lookup (result_key node) st = Some r ->
         referee_prepare env st = Ok c ->
         lookup (result_key node) (collected_scores c) = Some (JNum q).
Proof.
  intros Hn Hk Hw Hf.
  assert (Hg : In node graph_nodes).
  { unfold layer1 in Hn. unfold graph_nodes. simpl in *. intuition. }
  destruct (run_node_on_well_formed node key st0 out Hg Hk Hw) as (upd & Hr & Hfb).
  assert (Hfields : exists fields q why,
             upd = [(result_key node, JObj fields)]
             /\ lookup (score_field node) fields = Some (JNum q)
             /\ match fallback_score node with Some z => q = z | None => True end
             /\ lookup "thought_process" fields = Some (JStr why)
             /\ why <> "").
  { unfold falls_back in Hfb. destruct out; [discriminate Hf | exact Hfb | exact Hfb]. }
  destruct Hfields as (fields & q & why & -> & Hs & Hz & _ & _).
  exists (JObj fields), q. split; [exact Hr|].
  unfold layer1 in Hn. simpl in Hn.
  destruct Hn as [<-|[<-|[<-|[<-|[<-|[]]]]]];
    simpl in Hz; subst q; (split; [reflexivity|]);
    unfold score_field in Hs; simpl in Hs;
    intros env st c Hl Hp;
    destruct (referee_prepare_inv _ _ _ Hp) as (_ & H1 & H2 & H3 & H4 & H5 & _);
    unfold result_key, score_key_of in *; simpl in *;
    unfold collect_score, state_get in H1, H2, H3, H4, H5;
    rewrite Hl in *; simpl in *; rewrite Hs in *; congruence.
Qed.

Lemma fallback_score_reaches_referee_witness :
  In "location_coordinator" layer1
  /\ "gsk_key" <> ""
  /\ well_formed_state scenario_state = true
  /\ failed DecodeError = true
  /\ exists r q,
       run_node "location_coordinator" (Some "gsk_key") scenario_state DecodeError
       = Some (Ok [(result_key "location_coordinator", r)])
       /\ fallback_score "location_coordinator" = Some q
       /\ forall env st c,
            lookup (result_key "location_coordinator") st = Some r ->
            referee_prepare env st = Ok c ->
            lookup (result_key "location_coordinator") (collected_scores c)
            = Some (JNum q).
Proof.
  split; [simpl; auto 10|]. split; [discriminate|].
  split; [reflexivity|]. split; [reflexivity|].
  apply (fallback_score_reaches_referee "location_coordinator" "gsk_key"
           scenario_state DecodeError).
  - simpl; auto 10.
  - discriminate.
  - reflexivity.
  - reflexivity.
Defined.

(** An audit that fell back adjusts nothing: the referee reads a total
    adjustment of 0 from it. *)
Theorem failed_audit_adjusts_nothing
  (key : string) (st0 : dict) (out : llm_outcome) :
  key <> "" -> well_formed_state st0 = true -> failed out = true ->
  exists audit,
    fairness_auditor (Some key) st0 out = Ok [("fairness_audit", audit)]
    /\ field "score_adjustments" audit = Some zero_adjustments
    /\ field "bias_detected" audit = Some (JBool false)
    /\ forall env st c,
         lookup "fairness_audit" st = Some audit ->
         referee_prepare env st = Ok c ->
         total_fairness_adjustment c = JNum 0.
Proof.
  intros Hk Hw Hf.
  apply well_formed_state_inv in Hw.
  destruct Hw as ((ja & Hja & Hwa) & Hall & _).
  apply well_formed_application_inv in Hwa.
  destruct Hwa as (H1 & H2 & H3 & H4 & H5).
  unfold fairness_auditor, subscript.
  rewrite (initialize_llm_ok key Hk), Hja. cbn [bind].
  destruct (get_obj_with _ _ _ H4 eq_refl) as [info [E1 W1]]. rewrite E1.
  cbn [py_get bind]. cbv zeta.
  destruct (slot_obj st0 "resume_score" Hall) as [d1 ->].
  destruct (slot_obj st0 "cover_letter_score" Hall) as [d2 ->].
  destruct (slot_obj st0 "jd_match_score" Hall) as [d3 ->].
  destruct (slot_obj st0 "github_score" Hall) as [d4 ->].
  destruct (slot_obj st0 "location_score" Hall) as [d5 ->].
  cbn [py_get bind].
  destruct out as [v| |msg]; [discriminate Hf| |];
    (eexists; split; [reflexivity|]; split; [reflexivity|]; split; [reflexivity|];
     intros env st c Hl Hp;
     destruct (referee_prepare_inv _ _ _ Hp) as (_ & _ & _ & _ & _ & _ & _ & _ & Ha & _);
     unfold state_get in Ha; rewrite Hl in Ha; simpl in Ha; congruence).
Qed.

Lemma failed_audit_adjusts_nothing_witness :
  "gsk_key" <> ""
  /\ well_formed_state scenario_state = true
  /\ failed (InvokeError "timed out") = true
  /\ exists audit,
       fairness_auditor (Some "gsk_key") scenario_state (InvokeError "timed out")
       = Ok [("fairness_audit", audit)]
       /\ field "score_adjustments" audit = Some zero_adjustments
       /\ field "bias_detected" audit = Some (JBool false)
       /\ forall env st c,
            lookup "fairness_audit" st = Some audit ->
            referee_prepare env st = Ok c ->
            total_fairness_adjustment c = JNum 0.
Proof.
  split; [discriminate|]. split; [reflexivity|]. split; [reflexivity|].
  apply (failed_audit_adjusts_nothing "gsk_key" scenario_state (InvokeError "timed out")).
  - discriminate.
  - reflexivity.
  - reflexivity.
Defined.

(** The verdict event carries what the decoded response holds and
    nothing the referee computed: its label and score are the response's,
    "UNKNOWN" and 0 where the response has none. *)
Theorem verdict_event_reports_response
  (env : environ) (st : dict) (c : referee_locals) (d : dict) :
  referee_prepare env st = Ok c ->
  referee_agent env st (Decoded (JObj d)) = Ok [("final_verdict", JObj d)]
  /\ handle_event (completion_event "referee_agent" [("final_verdict", JObj d)])
     = Ok (Some (verdict_message "Referee Agent"
                   (match lookup "thought_process" d with
                    | Some v => v
                    | None => JStr ""
                    end)
                   (match lookup "verdict" d with
                    | Some v => v
                    | None => JStr "UNKNOWN"
                    end)
                   (match lookup "final_score" d with
                    | Some v => v
                    | None => JNum 0
                    end)
                   (JObj d))).
Proof.
  intros Hp. split.
  - unfold referee_agent. rewrite Hp. reflexivity.
  - reflexivity.
Qed.

Lemma verdict_event_reports_response_witness :
  exists c,
    referee_prepare some_key scenario_state = Ok c
    /\ handle_event (completion_event "referee_agent"
                       [("final_verdict", JObj [("decision", JStr "hire")])])
       = Ok (Some (verdict_message "Referee Agent" (JStr "") (JStr "UNKNOWN") (JNum 0)
                     (JObj [("decision", JStr "hire")]))).
Proof.
  eexists. split; [vm_compute; reflexivity|].
  match goal with
  | |- _ =>
      exact (proj2 (verdict_event_reports_response some_key scenario_state _
                      [("decision", JStr "hire")] eq_refl))
  end.
Defined.

(** * The scale of the weights *)





